(** * NGO-management backend: authentication and authorization core

    A shallow embedding of the Express handlers of the repository (the two
    versions of the authentication middleware and of the auth controller,
    the admin gate of the event routes, and the report, beneficiary, user,
    admin, event, donor, project and employee controllers) and the
    properties of their responses.

    Conventions of the embedding:
    - a JavaScript object with scalar properties (a Sequelize row, a decoded
      token payload, [req.body], [req.user]) is a [gmap string value]; reading
      a property that is not there gives [VUndefined];
    - the data store is explicit state: one table per Sequelize model, keyed
      by primary key, and two fault flags standing for the errors the store
      client raises on reads and on writes;
    - numbers are integers: amounts and dates pass through the handlers
      without being computed with;
    - a handler is a function from the request and the store to a result
      (the response sent, or the exception that escaped) and the new store;
    - the libraries the code calls but does not contain (jsonwebtoken,
      bcryptjs) are Section variables. *)

From stdpp Require Import gmap strings list fin_maps.
From Stdlib Require Import ZArith String Ascii.

Local Open Scope Z_scope.
Local Open Scope string_scope.

(** ** JavaScript values *)

Inductive value :=
| VUndefined
| VNull
| VBool (b : bool)
| VNum (n : Z)
| VStr (s : string).

Global Instance value_eq_dec : EqDecision value.
Proof. solve_decision. Defined.

(** [a === b] on scalars. *)
Definition strict_eq (a b : value) : bool := bool_decide (a = b).

(** [a !== b]. *)
Definition strict_ne (a b : value) : bool := negb (strict_eq a b).

(** Truthiness, as [if (v)] and [!v] use it. *)
Definition truthy (v : value) : bool :=
  match v with
  | VUndefined | VNull => false
  | VBool b => b
  | VNum n => negb (Z.eqb n 0)
  | VStr s => negb (String.eqb s "")
  end.

(** [o.k]: a missing property reads as [undefined]. *)
Definition prop (o : gmap string value) (k : string) : value :=
  default VUndefined (o !! k).

(** ** JSON bodies *)

#[local] Set Warnings "-register-all".

Inductive json :=
| JNull
| JBool (b : bool)
| JNum (n : Z)
| JStr (s : string)
| JArr (items : list json)
| JObj (fields : list (string * json)).

(** [JSON.stringify] drops properties whose value is [undefined]. *)
Definition json_of_value (v : value) : option json :=
  match v with
  | VUndefined => None
  | VNull => Some JNull
  | VBool b => Some (JBool b)
  | VNum n => Some (JNum n)
  | VStr s => Some (JStr s)
  end.

Definition json_fields (o : gmap string value) : list (string * json) :=
  omap (fun kv => pair (fst kv) <$> json_of_value (snd kv)) (map_to_list o).

Definition json_of_object (o : gmap string value) : json :=
  JObj (json_fields o).

(** Does the key occur as a property name anywhere in the document? *)
Fixpoint has_key (k : string) (j : json) : bool :=
  match j with
  | JArr items => existsb (has_key k) items
  | JObj fields =>
      existsb (fun kv => String.eqb (fst kv) k || has_key k (snd kv)) fields
  | _ => false
  end.

(** ** Requests and responses *)

Inductive Body :=
| BEmpty
| BText (s : string)
| BJson (j : json).

Record Response := { status : Z; body : Body }.

Record Request := {
  headers : gmap string string;
  reqBody : gmap string value;
  params : gmap string value;
  query : gmap string value;
  user : option (gmap string value);
  validationErrors : list json
}.

(** [req.header(name)]. *)
Definition header (req : Request) (name : string) : option string :=
  headers req !! name.

(** [res.status(c).send(text)], [res.status(c).json(j)], [res.status(c).send()]. *)
Definition send (c : Z) (text : string) : Response :=
  {| status := c; body := BText text |}.
Definition sendJson (c : Z) (j : json) : Response :=
  {| status := c; body := BJson j |}.
Definition sendEmpty (c : Z) : Response :=
  {| status := c; body := BEmpty |}.

Definition body_has_key (k : string) (r : Response) : bool :=
  match body r with
  | BJson j => has_key k j
  | _ => false
  end.

(** ** Exceptions and the data store *)

(** A computation returns or throws; the string is [error.message]. *)
Inductive result (A : Type) :=
| Ok (a : A)
| Throw (message : string).
Arguments Ok {A} a.
Arguments Throw {A} message.

(** One table per Sequelize model, under the model's name, rows keyed by
    primary key.  [readFault] and [writeFault], when set, are the error every
    query, respectively every insert, update or delete, raises (connection
    lost, timeout, a violated column constraint): the store is then not
    touched by the call. *)
Record Db := {
  tables : gmap string (gmap Z (gmap string value));
  readFault : option string;
  writeFault : option string
}.

(** Computations over the store.  A write made before an exception stays. *)
Definition M (A : Type) : Type := Db -> result A * Db.

Definition ret {A} (a : A) : M A := fun db => (Ok a, db).

Definition throw {A} (message : string) : M A := fun db => (Throw message, db).

Definition bind {A B} (m : M A) (k : A -> M B) : M B :=
  fun db =>
    match m db with
    | (Ok a, db') => k a db'
    | (Throw e, db') => (Throw e, db')
    end.

(** [try { body } catch (err) { handler }]. *)
Definition try_catch {A} (body : M A) (handler : string -> M A) : M A :=
  fun db =>
    match body db with
    | (Ok a, db') => (Ok a, db')
    | (Throw e, db') => handler e db'
    end.

(** A synchronous library call that may throw. *)
Definition lift {A} (r : result A) : M A := fun db => (r, db).

Declare Scope js_scope.
Delimit Scope js_scope with js.
Notation "'let*' x ':=' c1 'in' c2" := (bind c1 (fun x => c2))
  (at level 10, x name, c1 at level 100, c2 at level 200) : js_scope.
Local Open Scope js_scope.

(** ** Sequelize models *)

(** A model is the name it was defined under, [sequelize.define(name, ...)]. *)
Definition Model := string.

Definition rows (m : Model) (db : Db) : gmap Z (gmap string value) :=
  default ∅ (tables db !! m).

Definition set_rows (m : Model) (t : gmap Z (gmap string value)) (db : Db) : Db :=
  {| tables := <[m := t]> (tables db);
     readFault := readFault db; writeFault := writeFault db |}.

Definition User : Model := "User".
Definition Report : Model := "Report".
Definition Beneficiary : Model := "Beneficiary".
Definition Event : Model := "Event".
Definition Donor : Model := "Donor".
Definition Project : Model := "Project".
Definition Employee : Model := "Employee".

(** [username: { type: DataTypes.STRING, unique: true }] of the User model:
    no two rows of the table share a username. *)
Definition unique_usernames (db : Db) : Prop :=
  forall i j u v,
    rows User db !! i = Some u -> rows User db !! j = Some v ->
    prop u "username" = prop v "username" -> i = j.

(** Decimal digits of a path parameter or of a string compared with an
    integer column. *)
Definition digit (c : ascii) : option Z :=
  let n := Z.of_N (N_of_ascii c) in
  if Z.leb 48 n && Z.leb n 57 then Some (n - 48) else None.

Fixpoint parse_digits (acc : Z) (s : string) : option Z :=
  match s with
  | EmptyString => Some acc
  | String c rest =>
      match digit c with
      | Some d => parse_digits (10 * acc + d) rest
      | None => None
      end
  end.

Definition parse_int (s : string) : option Z :=
  match s with
  | EmptyString => None
  | String "-" (String c rest) => Z.opp <$> parse_digits 0 (String c rest)
  | _ => parse_digits 0 s
  end.

(** The primary key a value denotes: none for [null] and [undefined], the
    number for a number or a decimal string, and an error of the store for
    anything else. *)
Definition as_pk (v : value) : result (option Z) :=
  match v with
  | VUndefined | VNull => Ok None
  | VNum n => Ok (Some n)
  | VStr s =>
      match parse_int s with
      | Some n => Ok (Some n)
      | None => Throw "invalid input syntax for type integer"
      end
  | VBool _ => Throw "invalid input syntax for type integer"
  end.

(** [Model.findByPk(id)]: [null] without a query when the key is [null] or
    [undefined]. *)
Definition findByPk (m : Model) (id : value) : M (option (gmap string value)) :=
  fun db =>
    match id with
    | VUndefined | VNull => (Ok None, db)
    | _ =>
        match readFault db with
        | Some e => (Throw e, db)
        | None =>
            match as_pk id with
            | Ok (Some k) => (Ok (rows m db !! k), db)
            | Ok None => (Ok None, db)
            | Throw e => (Throw e, db)
            end
        end
    end.

(** The first row, in the order of [map_to_list], whose column equals the
    value. *)
Definition first_where (k : string) (v : value) (t : gmap Z (gmap string value))
  : option (gmap string value) :=
  snd <$> head (filter (fun kr => prop (snd kr) k = v) (map_to_list t)).

(** [Model.findOne({ where: { k: v } })]: Sequelize rejects an [undefined]
    value in a where clause. *)
Definition findOne (m : Model) (k : string) (v : value)
  : M (option (gmap string value)) :=
  fun db =>
    match v with
    | VUndefined => (Throw "WHERE parameter has invalid undefined value", db)
    | _ =>
        match readFault db with
        | Some e => (Throw e, db)
        | None => (Ok (first_where k v (rows m db)), db)
        end
    end.

(** The key an auto-increment column gives the next row. *)
Definition fresh_id (t : gmap Z (gmap string value)) : Z :=
  1 + map_fold (fun k _ acc => Z.max k acc) 0 t.

(** What the store keeps of a value: a column that is given [undefined] is
    NULL, and reads back as [null]. *)
Definition stored (v : value) : value :=
  match v with
  | VUndefined => VNull
  | _ => v
  end.

(** [Model.create(data)]: the row is stored under the key [data] names, or
    under a fresh one; the instance returned is the row as stored. *)
Definition create (m : Model) (data : gmap string value) : M (gmap string value) :=
  fun db =>
    match writeFault db with
    | Some e => (Throw e, db)
    | None =>
        match as_pk (prop data "id") with
        | Throw e => (Throw e, db)
        | Ok (Some k) =>
            match rows m db !! k with
            | Some _ => (Throw "Validation error", db)
            | None =>
                let row := stored <$> <["id" := VNum k]> data in
                (Ok row, set_rows m (<[k := row]> (rows m db)) db)
            end
        | Ok None =>
            let k := fresh_id (rows m db) in
            let row := stored <$> <["id" := VNum k]> data in
            (Ok row, set_rows m (<[k := row]> (rows m db)) db)
        end
    end.

(** The key an instance is saved or destroyed under: its [id].  Sequelize
    refuses to write an instance that has none. *)
Definition instance_key (instance : gmap string value) : result Z :=
  match prop instance "id" with
  | VNum k => Ok k
  | _ => Throw "You attempted to save an instance with no primary key"
  end.

(** [instance.update(data)] and [instance.save()] after assignments: the row
    of the instance is overwritten with the changed properties. *)
Definition update (m : Model) (instance data : gmap string value)
  : M (gmap string value) :=
  fun db =>
    match instance_key instance with
    | Throw e => (Throw e, db)
    | Ok k =>
        match writeFault db with
        | Some e => (Throw e, db)
        | None =>
            let row := stored <$> (data ∪ instance) in
            (Ok row, set_rows m (<[k := row]> (rows m db)) db)
        end
    end.

(** [Model.update(data, { where: { id } })]: the number of rows changed. *)
Definition updateWhereId (m : Model) (id : value) (data : gmap string value) : M Z :=
  fun db =>
    match id with
    | VUndefined => (Throw "WHERE parameter has invalid undefined value", db)
    | _ =>
        match writeFault db with
        | Some e => (Throw e, db)
        | None =>
            match as_pk id with
            | Throw e => (Throw e, db)
            | Ok None => (Ok 0, db)
            | Ok (Some k) =>
                match rows m db !! k with
                | None => (Ok 0, db)
                | Some row =>
                    (Ok 1, set_rows m (<[k := stored <$> (data ∪ row)]> (rows m db)) db)
                end
            end
        end
    end.

(** [Model.destroy({ where: { id } })]: the number of rows deleted. *)
Definition destroyWhereId (m : Model) (id : value) : M Z :=
  fun db =>
    match id with
    | VUndefined => (Throw "WHERE parameter has invalid undefined value", db)
    | _ =>
        match writeFault db with
        | Some e => (Throw e, db)
        | None =>
            match as_pk id with
            | Throw e => (Throw e, db)
            | Ok None => (Ok 0, db)
            | Ok (Some k) =>
                match rows m db !! k with
                | None => (Ok 0, db)
                | Some _ => (Ok 1, set_rows m (delete k (rows m db)) db)
                end
            end
        end
    end.

(** [instance.destroy()]. *)
Definition destroy (m : Model) (instance : gmap string value) : M unit :=
  fun db =>
    match instance_key instance with
    | Throw e => (Throw e, db)
    | Ok k =>
        match writeFault db with
        | Some e => (Throw e, db)
        | None => (Ok tt, set_rows m (delete k (rows m db)) db)
        end
    end.

(** ** Strings *)

(** [s.split(sep)] for a one-character separator. *)
Fixpoint split (sep : ascii) (s : string) : list string :=
  match s with
  | EmptyString => [EmptyString]
  | String c rest =>
      if Ascii.eqb c sep then EmptyString :: split sep rest
      else
        match split sep rest with
        | w :: ws => String c w :: ws
        | [] => [String c EmptyString]
        end
  end.

(** [a[i]] on an array of strings: [undefined] out of range. *)
Definition at_index (a : list string) (i : nat) : value :=
  from_option VStr VUndefined (a !! i).

(** Does the character occur in the string? *)
Fixpoint contains (c : ascii) (s : string) : bool :=
  match s with
  | EmptyString => false
  | String c' rest => Ascii.eqb c' c || contains c rest
  end.

(** ** Middleware *)

(** What a middleware does with a request: it answers, or it calls [next()]
    on the request it may have changed. *)
Inductive Step :=
| Sent (r : Response)
| Next (req : Request).

(** Two runs that end alike: the same response, or the same principal
    passed on. *)
Definition alike (a b : result Step * Db) : Prop :=
  match a, b with
  | (Ok (Sent r1), _), (Ok (Sent r2), _) => r1 = r2
  | (Ok (Next q1), _), (Ok (Next q2), _) => user q1 = user q2
  | _, _ => False
  end.

(** [req.user = principal]. *)
Definition set_user (req : Request) (principal : gmap string value) : Request :=
  {| headers := headers req; reqBody := reqBody req; params := params req;
     query := query req; user := Some principal; validationErrors := validationErrors req |}.

(** [const currentUser = req.user; currentUser.type]: reading a property of
    [undefined] is a TypeError. *)
Definition currentUser (req : Request) : M (gmap string value) :=
  match user req with
  | Some u => ret u
  | None => throw "Cannot read properties of undefined"
  end.


(** src/middleware/authMiddleware.js *)
Module AuthMiddleware.
Section WithJwt.
(** [jwt.verify(token, secret)] and [process.env.SECRET]. *)
Variable jwt_verify : value -> value -> result (gmap string value).
Variable SECRET : value.

(** [token.startsWith("Bearer ") ? token.split(" ")[1] : token] *)
Definition tokenWithoutBearer (token : string) : value :=
  if String.prefix "Bearer " token then at_index (split " " token) 1
  else VStr token.

Definition authMiddleware (req : Request) : M Step :=
  match header req "Authorization" with
  | None | Some EmptyString =>
      ret (Sent (send 401 "Access denied. No token provided."))
  | Some token =>
      try_catch
        (let* decoded := lift (jwt_verify (tokenWithoutBearer token) SECRET) in
         let* user := findByPk User (prop decoded "id") in
         match user with
         | None => ret (Sent (send 404 "User not found."))
         | Some user =>
             ret (Next (set_user req
               {[ "id" := prop decoded "id"; "type" := prop user "type" ]}))
         end)
        (fun ex => ret (Sent (send 400 "Invalid token.")))
  end.
End WithJwt.
End AuthMiddleware.

(** The second version of the middleware (src/unnamed/part_000). *)
Module AuthMiddlewareAlt.
Section WithJwt.
Variable jwt_verify : value -> value -> result (gmap string value).
Variable SECRET : value.

Definition authMiddleware (req : Request) : M Step :=
  match header req "Authorization" with
  | None | Some EmptyString =>
      ret (Sent (send 401 "Access denied. No token provided."))
  | Some token =>
      let tokenValue := at_index (split " " token) 1 in
      if negb (truthy tokenValue) then
        ret (Sent (sendJson 401 (JObj [("message", JStr "Invalid token format.")])))
      else
        try_catch
          (let* decoded := lift (jwt_verify tokenValue SECRET) in
           let* user := findByPk User (prop decoded "id") in
           match user with
           | None =>
               ret (Sent (sendJson 404 (JObj [("message", JStr "User not found.")])))
           | Some user =>
               ret (Next (set_user req
                 {[ "id" := prop decoded "id"; "type" := prop user "type" ]}))
           end)
          (fun error =>
             ret (Sent (sendJson 400
               (JObj [("message", JStr "Invalid token."); ("error", JStr error)]))))
  end.
End WithJwt.
End AuthMiddlewareAlt.

(** The admin gate of the event routes (src/unnamed/part_003). *)
Module EventRoutes.
Definition adminMiddleware (req : Request) : M Step :=
  let* currentUser := currentUser req in
  if strict_eq (prop currentUser "type") (VStr "admin") then ret (Next req)
  else
    ret (Sent (send 401 "Unauthorized. Only admin users can access this resource.")).
End EventRoutes.

(** ** Auth controller *)

(** An object literal sent as a body: properties in source order, the
    [undefined] ones dropped by the serialisation. *)
Definition jobj (fields : list (string * value)) : json :=
  JObj (omap (fun kv => pair (fst kv) <$> json_of_value (snd kv)) fields).

(** The compact serialisation of a signed token: three segments joined by
    dots. *)
Definition compact (segments : string * string * string) : string :=
  let '(h, p, s) := segments in h ++ "." ++ p ++ "." ++ s.

(** What a library call returned, passed through a function. *)
Definition result_map {A B} (f : A -> B) (r : result A) : result B :=
  match r with
  | Ok a => Ok (f a)
  | Throw e => Throw e
  end.

(** The controller of the ngo-admin version (src/unnamed/part_008). *)
Module AuthController.
Section WithLibraries.
(** [bcrypt.hashSync(password, rounds)], [bcrypt.compareSync(password, hash)],
    the segments [jwt.sign(payload, secret, { expiresIn })] computes, and
    [process.env.SECRET], as they answer during the request. *)
Variable bcrypt_hashSync : value -> Z -> result string.
Variable bcrypt_compareSync : value -> value -> result bool.
Variable jwt_segments :
  gmap string value -> value -> Z -> result (string * string * string).
Variable SECRET : value.

Definition jwt_sign (payload : gmap string value) (secret : value) (expiresIn : Z)
  : result string :=
  result_map compact (jwt_segments payload secret expiresIn).

Definition adminRegister (req : Request) : M Response :=
  try_catch
    (let username := prop (reqBody req) "username" in
     let password := prop (reqBody req) "password" in
     let* hashedPassword := lift (bcrypt_hashSync password 8) in
     let* _ := create User
       {[ "username" := username; "password" := VStr hashedPassword;
          "type" := VStr "admin" ]} in
     ret (sendJson 200
       (jobj [("message", VStr "User registered successfully as admin.");
              ("username", username)])))
    (fun err => ret (send 500 "Error on the server.")).

Definition ngoAdminRegister (req : Request) : M Response :=
  try_catch
    (let username := prop (reqBody req) "username" in
     let password := prop (reqBody req) "password" in
     let* hashedPassword := lift (bcrypt_hashSync password 8) in
     if match user req with
        | Some u => strict_eq (prop u "type") (VStr "admin")
        | None => false
        end
     then
       let* _ := create User
         {[ "username" := username; "password" := VStr hashedPassword;
            "type" := VStr "ngo_admin" ]} in
       ret (sendJson 200
         (jobj [("message", VStr "User registered successfully as ngo admin.");
                ("username", username)]))
     else
       ret (send 403 "Access denied. Only admin can create school admins."))
    (fun err => ret (send 500 "Error on the server.")).

Definition login (req : Request) : M Response :=
  try_catch
    (let username := prop (reqBody req) "username" in
     let password := prop (reqBody req) "password" in
     let* user := findOne User "username" username in
     match user with
     | None => ret (sendJson 404 (jobj [("message", VStr "User not found.")]))
     | Some user =>
         let* passwordIsValid :=
           lift (bcrypt_compareSync password (prop user "password")) in
         if negb passwordIsValid then
           ret (sendJson 401 (jobj [("auth", VBool false); ("token", VNull)]))
         else
           let* token := lift (jwt_sign
             {[ "id" := prop user "id"; "type" := prop user "type" ]}
             SECRET 86400) in
           ret (sendJson 200 (jobj [("auth", VBool true); ("token", VStr token)]))
     end)
    (fun err => ret (send 500 "Error on the server.")).
End WithLibraries.
End AuthController.

(** The controller of the volunteer version (src/unnamed/part_009). *)
Module AuthControllerAlt.
Section WithLibraries.
Variable bcrypt_hashSync : value -> Z -> result string.
Variable bcrypt_compareSync : value -> value -> result bool.
Variable jwt_segments :
  gmap string value -> value -> Z -> result (string * string * string).
Variable SECRET : value.

Definition jwt_sign (payload : gmap string value) (secret : value) (expiresIn : Z)
  : result string :=
  result_map compact (jwt_segments payload secret expiresIn).

Definition adminRegister (req : Request) : M Response :=
  try_catch
    (let username := prop (reqBody req) "username" in
     let password := prop (reqBody req) "password" in
     let* hashedPassword := lift (bcrypt_hashSync password 8) in
     let* _ := create User
       {[ "username" := username; "password" := VStr hashedPassword;
          "type" := VStr "admin" ]} in
     ret (sendJson 200
       (jobj [("message", VStr "User registered successfully as admin.");
              ("username", username)])))
    (fun err => ret (send 500 "Error on the server.")).

Definition volunteerRegister (req : Request) : M Response :=
  try_catch
    (let username := prop (reqBody req) "username" in
     let password := prop (reqBody req) "password" in
     let* hashedPassword := lift (bcrypt_hashSync password 8) in
     if match user req with
        | Some u => strict_eq (prop u "type") (VStr "admin")
        | None => false
        end
     then
       let* _ := create User
         {[ "username" := username; "password" := VStr hashedPassword;
            "type" := VStr "volunteer" ]} in
       ret (sendJson 200
         (jobj [("message", VStr "User registered successfully as volunteer.");
                ("username", username)]))
     else
       ret (send 403 "Access denied. Only admin can create volunteers."))
    (fun err => ret (send 500 "Error on the server.")).

Definition login (req : Request) : M Response :=
  try_catch
    (let username := prop (reqBody req) "username" in
     let password := prop (reqBody req) "password" in
     let* user := findOne User "username" username in
     match user with
     | None => ret (send 404 "User not found.")
     | Some user =>
         let* passwordIsValid :=
           lift (bcrypt_compareSync password (prop user "password")) in
         if negb passwordIsValid then
           ret (sendJson 401 (jobj [("auth", VBool false); ("token", VNull)]))
         else
           let* token := lift (jwt_sign {[ "id" := prop user "id" ]} SECRET 86400) in
           ret (sendJson 200 (jobj [("auth", VBool true); ("token", VStr token)]))
     end)
    (fun err => ret (send 500 "Error on the server.")).
End WithLibraries.
End AuthControllerAlt.

(** ** Resource controllers *)

(** [res.status(400).json({ errors: errors.array() })] *)
Definition validationFailed (req : Request) : Response :=
  sendJson 400 (JObj [("errors", JArr (validationErrors req))]).

(** [!errors.isEmpty()] for [errors = validationResult(req)]. *)
Definition hasErrors (req : Request) : bool :=
  match validationErrors req with
  | [] => false
  | _ => true
  end.

(** [res.status(500).json({ error: "Internal server error",
    details: [error.message] })] *)
Definition internalError (message : string) : Response :=
  sendJson 500
    (JObj [("error", JStr "Internal server error"); ("details", JArr [JStr message])]).

(** The columns an [include] with [attributes] selects from a joined row. *)
Definition pick (attributes : list string) (row : gmap string value) : json :=
  JObj (map (fun k => (k, default JNull (json_of_value (prop row k)))) attributes).

(** src/controllers/reportController.js *)
Module ReportController.

(** [Report.findByPk(id, { include: [{ model: User, as: 'beneficiary',
    attributes: ['id', 'name', 'email'] }] })]: one query, the report
    joined with the user its [beneficiary_id] names, if there is one. *)
Definition joined (m : Model) (key : value) (db : Db) : option (gmap string value) :=
  match as_pk key with
  | Ok (Some k) => rows m db !! k
  | _ => None
  end.

Definition findByPk_with_beneficiary (id : value)
  : M (option (gmap string value * option (gmap string value))) :=
  fun db =>
    match findByPk Report id db with
    | (Ok (Some report), db') =>
        (Ok (Some (report, joined User (prop report "beneficiary_id") db')), db')
    | (Ok None, db') => (Ok None, db')
    | (Throw e, db') => (Throw e, db')
    end.

Definition report_with_beneficiary
    (report : gmap string value) (beneficiary : option (gmap string value)) : json :=
  JObj (json_fields report ++
        [("beneficiary",
          from_option (pick ["id"; "name"; "email"]) JNull beneficiary)]).

(** The condition of the three by-id handlers:
    [currentUser.type === "admin" || (currentUser.type === "ngo_admin" &&
     currentUser.ngo_id === report.ngo_id)] *)
Definition scopedOwner (currentUser report : gmap string value) : bool :=
  strict_eq (prop currentUser "type") (VStr "ngo_admin")
  && strict_eq (prop currentUser "ngo_id") (prop report "ngo_id").

Definition mayAccess (currentUser report : gmap string value) : bool :=
  strict_eq (prop currentUser "type") (VStr "admin") || scopedOwner currentUser report.

Definition getReportById (req : Request) : M Response :=
  if hasErrors req then ret (validationFailed req)
  else
    let id := prop (params req) "id" in
    try_catch
      (let* report := findByPk_with_beneficiary id in
       match report with
       | None => ret (send 404 "Report not found.")
       | Some (report, beneficiary) =>
           let* currentUser := currentUser req in
           if mayAccess currentUser report then
             ret (sendJson 200 (report_with_beneficiary report beneficiary))
           else
             ret (send 401 "Unauthorized. You do not have access to this report.")
       end)
      (fun error => ret (internalError error)).

Definition createReport (req : Request) : M Response :=
  if hasErrors req then ret (validationFailed req)
  else
    let beneficiary_id := prop (reqBody req) "beneficiary_id" in
    let aid_amount := prop (reqBody req) "aid_amount" in
    let aid_date := prop (reqBody req) "aid_date" in
    try_catch
      (let* currentUser := currentUser req in
       let* report := create Report
         {[ "beneficiary_id" := beneficiary_id; "aid_amount" := aid_amount;
            "aid_date" := aid_date; "ngo_id" := prop currentUser "ngo_id" ]} in
       ret (sendJson 201 (json_of_object report)))
      (fun error => ret (internalError error)).

(** [if (x !== undefined) report.k = x] for the three optional properties. *)
Definition assigned (req : Request) : gmap string value :=
  filter (fun kv => snd kv <> VUndefined)
    ({[ "beneficiary_id" := prop (reqBody req) "beneficiary_id";
        "aid_amount" := prop (reqBody req) "aid_amount";
        "aid_date" := prop (reqBody req) "aid_date" ]} : gmap string value).

Definition updateReportById (req : Request) : M Response :=
  if hasErrors req then ret (validationFailed req)
  else
    let id := prop (params req) "id" in
    try_catch
      (let* report := findByPk Report id in
       match report with
       | None => ret (send 404 "Report not found.")
       | Some report =>
           let* currentUser := currentUser req in
           if mayAccess currentUser report then
             let* report := update Report report (assigned req) in
             ret (sendJson 200 (json_of_object report))
           else
             ret (send 401
               "Unauthorized. You do not have access to update this report.")
       end)
      (fun error => ret (internalError error)).

Definition deleteReportById (req : Request) : M Response :=
  if hasErrors req then ret (validationFailed req)
  else
    let id := prop (params req) "id" in
    try_catch
      (let* report := findByPk Report id in
       match report with
       | None => ret (send 404 "Report not found.")
       | Some report =>
           let* currentUser := currentUser req in
           if mayAccess currentUser report then
             let* _ := destroy Report report in
             ret (send 200 "Report deleted successfully.")
           else
             ret (send 401
               "Unauthorized. You do not have access to delete this report.")
       end)
      (fun error => ret (internalError error)).
Section WithQuery.
(** The rows and count the search, order, limit and offset options built
    from [req.query] select once [where.ngo_id] is pinned (or not), and the
    [meta] object computed from them. *)
Variable select :
  gmap string value -> option value -> gmap Z (gmap string value)
  -> list (gmap string value) * Z.
Variable meta : gmap string value -> Z -> json.



End WithQuery.
End ReportController.

(** [const currentUser = req.user;
     if (currentUser.type !== "admin") return res.status(401).send(message);]
    followed by the rest of the handler. *)
Definition unlessAdmin (req : Request) (message : string) (rest : M Response)
  : M Response :=
  let* currentUser := currentUser req in
  if strict_ne (prop currentUser "type") (VStr "admin") then ret (send 401 message)
  else rest.

(** [Model.findAndCountAll(options)] and [Model.findAll(options)]: the rows
    the options select from the table. *)
Definition findAll {A} (m : Model) (select : gmap Z (gmap string value) -> A) : M A :=
  fun db =>
    match readFault db with
    | Some e => (Throw e, db)
    | None => (Ok (select (rows m db)), db)
    end.

(** [rows.forEach((row) => { delete row.dataValues.password; })] and the
    [{ data, meta: { totalItems, totalPages, currentPage } }] body. *)
Definition page_body (data : list (gmap string value)) (meta : json) : json :=
  JObj [("data", JArr (map json_of_object data)); ("meta", meta)].

(** The beneficiary controller (src/unnamed/part_007). *)
Module BeneficiaryController.
Section WithQuery.
(** The rows and count the where, order, limit and offset options built
    from [req.query] select, and the [meta] object computed from them. *)
Variable select :
  gmap string value -> gmap Z (gmap string value) -> list (gmap string value) * Z.
Variable meta : gmap string value -> Z -> json.

Definition getAllBeneficiaries (req : Request) : M Response :=
  if hasErrors req then ret (validationFailed req)
  else
    unlessAdmin req "Unauthorized. Only admin users can view beneficiaries."
      (try_catch
         (let* found := findAll Beneficiary (select (query req)) in
          let beneficiaries := map (delete "password") (fst found) in
          ret (sendJson 200
            (page_body beneficiaries (meta (query req) (snd found)))))
         (fun error => ret (internalError error))).
End WithQuery.

Definition getBeneficiaryById (req : Request) : M Response :=
  if hasErrors req then ret (validationFailed req)
  else
    unlessAdmin req "Unauthorized. Only admin users can view beneficiaries."
      (let id := prop (params req) "id" in
       try_catch
         (let* beneficiary := findByPk Beneficiary id in
          match beneficiary with
          | None => ret (send 404 "Beneficiary not found.")
          | Some beneficiary =>
              ret (sendJson 200 (json_of_object (delete "password" beneficiary)))
          end)
         (fun error => ret (internalError error))).

Definition createBeneficiary (req : Request) : M Response :=
  if hasErrors req then ret (validationFailed req)
  else
    unlessAdmin req "Unauthorized. Only admin users can create beneficiaries."
      (let beneficiaryData := reqBody req in
       try_catch
         (let* beneficiary := create Beneficiary beneficiaryData in
          ret (sendJson 201 (json_of_object beneficiary)))
         (fun error => ret (internalError error))).

Definition updateBeneficiary (req : Request) : M Response :=
  if hasErrors req then ret (validationFailed req)
  else
    unlessAdmin req "Unauthorized. Only admin users can update beneficiaries."
      (let id := prop (params req) "id" in
       let updateData := reqBody req in
       try_catch
         (let* beneficiary := findByPk Beneficiary id in
          match beneficiary with
          | None => ret (send 404 "Beneficiary not found.")
          | Some beneficiary =>
              let* beneficiary :=
                update Beneficiary beneficiary updateData in
              ret (sendJson 200 (json_of_object beneficiary))
          end)
         (fun error => ret (internalError error))).

Definition deleteBeneficiary (req : Request) : M Response :=
  if hasErrors req then ret (validationFailed req)
  else
    unlessAdmin req "Unauthorized. Only admin users can delete beneficiaries."
      (let id := prop (params req) "id" in
       try_catch
         (let* beneficiary := findByPk Beneficiary id in
          match beneficiary with
          | None => ret (send 404 "Beneficiary not found.")
          | Some beneficiary =>
              let* _ := destroy Beneficiary beneficiary in
              ret (sendEmpty 204)
          end)
         (fun error => ret (internalError error))).
End BeneficiaryController.

(** The user controller (src/unnamed/part_010, first file). *)
Module UserController.
Section WithQuery.
Variable select :
  gmap string value -> gmap Z (gmap string value) -> list (gmap string value) * Z.
Variable meta : gmap string value -> Z -> json.

Definition getAllUsers (req : Request) : M Response :=
  if hasErrors req then ret (validationFailed req)
  else
    unlessAdmin req "Unauthorized. Only admin users can view users."
      (try_catch
         (let* found := findAll User (select (query req)) in
          let users := map (delete "password") (fst found) in
          ret (sendJson 200 (page_body users (meta (query req) (snd found)))))
         (fun error => ret (internalError error))).
End WithQuery.

Definition getUserById (req : Request) : M Response :=
  if hasErrors req then ret (validationFailed req)
  else
    unlessAdmin req "Unauthorized. Only admin users can view users."
      (let id := prop (params req) "id" in
       try_catch
         (let* user := findByPk User id in
          match user with
          | None => ret (send 404 "User not found.")
          | Some user => ret (sendJson 200 (json_of_object (delete "password" user)))
          end)
         (fun error => ret (internalError error))).

Definition createUser (req : Request) : M Response :=
  if hasErrors req then ret (validationFailed req)
  else
    unlessAdmin req "Unauthorized. Only admin users can create new users."
      (let userData := reqBody req in
       try_catch
         (let* newUser := create User userData in
          ret (sendJson 201 (json_of_object (delete "password" newUser))))
         (fun error => ret (internalError error))).

Definition updateUser (req : Request) : M Response :=
  if hasErrors req then ret (validationFailed req)
  else
    unlessAdmin req "Unauthorized. Only admin users can update users."
      (let id := prop (params req) "id" in
       let userData := reqBody req in
       try_catch
         (let* user := findByPk User id in
          match user with
          | None => ret (send 404 "User not found.")
          | Some user =>
              let* user := update User user userData in
              ret (sendJson 200 (json_of_object (delete "password" user)))
          end)
         (fun error => ret (internalError error))).

Definition deleteUser (req : Request) : M Response :=
  if hasErrors req then ret (validationFailed req)
  else
    unlessAdmin req "Unauthorized. Only admin users can delete users."
      (let id := prop (params req) "id" in
       try_catch
         (let* user := findByPk User id in
          match user with
          | None => ret (send 404 "User not found.")
          | Some user =>
              let* _ := destroy User user in
              ret (sendEmpty 204)
          end)
         (fun error => ret (internalError error))).
End UserController.

(** src/controllers/adminController.js *)
Module AdminController.
Section WithQuery.
(** The rows [where: { type: 'admin' }] with the order, limit and offset of
    [req.query] select. *)
Variable select :
  gmap string value -> gmap Z (gmap string value) -> list (gmap string value).

Definition getAllAdmins (req : Request) : M Response :=
  try_catch
    (let* admins := findAll User (select (query req)) in
     ret (sendJson 200 (JArr (map json_of_object admins))))
    (fun error => ret (internalError error)).
End WithQuery.

Definition getAdminById (req : Request) : M Response :=
  let id := prop (params req) "id" in
  try_catch
    (let* admin := findByPk User id in
     match admin with
     | None => ret (send 404 "Admin not found.")
     | Some admin => ret (sendJson 200 (json_of_object admin))
     end)
    (fun error => ret (internalError error)).

Definition createAdmin (req : Request) : M Response :=
  if hasErrors req then ret (validationFailed req)
  else
    unlessAdmin req "Unauthorized. Only admin users can create other admins."
      (try_catch
         (let* newAdmin := create User (reqBody req) in
          ret (sendJson 201 (json_of_object newAdmin)))
         (fun error => ret (internalError error))).

Definition updateAdmin (req : Request) : M Response :=
  if hasErrors req then ret (validationFailed req)
  else
    unlessAdmin req "Unauthorized. Only admin users can update admin details."
      (let id := prop (params req) "id" in
       try_catch
         (let* admin := findByPk User id in
          match admin with
          | None => ret (send 404 "Admin not found.")
          | Some admin =>
              let* updatedAdmin := update User admin (reqBody req) in
              ret (sendJson 200 (json_of_object updatedAdmin))
          end)
         (fun error => ret (internalError error))).

Definition deleteAdmin (req : Request) : M Response :=
  let id := prop (params req) "id" in
  unlessAdmin req "Unauthorized. Only admin users can delete admin accounts."
    (try_catch
       (let* admin := findByPk User id in
        match admin with
        | None => ret (send 404 "Admin not found.")
        | Some admin =>
            let* _ := destroy User admin in
            ret (sendEmpty 204)
        end)
       (fun error => ret (internalError error))).
End AdminController.

(** src/controllers/eventController.js *)
Module EventController.
Section WithQuery.
Variable select :
  gmap string value -> gmap Z (gmap string value) -> list (gmap string value) * Z.
Variable meta : gmap string value -> Z -> json.

Definition getAllEvents (req : Request) : M Response :=
  unlessAdmin req "Unauthorized. Only admin users can view events."
    (try_catch
       (let* found := findAll Event (select (query req)) in
        ret (sendJson 200 (page_body (fst found) (meta (query req) (snd found)))))
       (fun error => ret (internalError error))).
End WithQuery.

Definition getEventById (req : Request) : M Response :=
  unlessAdmin req "Unauthorized. Only admin users can view events."
    (let id := prop (params req) "id" in
     try_catch
       (let* event := findByPk Event id in
        match event with
        | None => ret (send 404 "Event not found.")
        | Some event => ret (sendJson 200 (json_of_object event))
        end)
       (fun error => ret (internalError error))).

Definition createEvent (req : Request) : M Response :=
  unlessAdmin req "Unauthorized. Only admin users can create new events."
    (let eventData := reqBody req in
     try_catch
       (let* newEvent := create Event eventData in
        ret (sendJson 201 (json_of_object newEvent)))
       (fun error => ret (internalError error))).

Definition updateEvent (req : Request) : M Response :=
  unlessAdmin req "Unauthorized. Only admin users can update events."
    (let id := prop (params req) "id" in
     let eventData := reqBody req in
     try_catch
       (let* event := findByPk Event id in
        match event with
        | None => ret (send 404 "Event not found.")
        | Some event =>
            let* event := update Event event eventData in
            ret (sendJson 200 (json_of_object event))
        end)
       (fun error => ret (internalError error))).

Definition deleteEvent (req : Request) : M Response :=
  unlessAdmin req "Unauthorized. Only admin users can delete events."
    (let id := prop (params req) "id" in
     try_catch
       (let* event := findByPk Event id in
        match event with
        | None => ret (send 404 "Event not found.")
        | Some event =>
            let* _ := destroy Event event in
            ret (sendEmpty 204)
        end)
       (fun error => ret (internalError error))).
End EventController.

(** The donor controller (src/controllers/reportController.js, second file). *)
Module DonorController.
Section WithQuery.
Variable select :
  gmap string value -> gmap Z (gmap string value) -> list (gmap string value) * Z.
Variable meta : gmap string value -> Z -> json.

Definition getAllDonors (req : Request) : M Response :=
  unlessAdmin req "Unauthorized. Only admin users can view donors."
    (try_catch
       (let* found := findAll Donor (select (query req)) in
        ret (sendJson 200 (page_body (fst found) (meta (query req) (snd found)))))
       (fun error => ret (internalError error))).
End WithQuery.

Definition getDonorById (req : Request) : M Response :=
  unlessAdmin req "Unauthorized. Only admin users can view donors."
    (let id := prop (params req) "id" in
     try_catch
       (let* donor := findByPk Donor id in
        match donor with
        | None => ret (send 404 "Donor not found.")
        | Some donor => ret (sendJson 200 (json_of_object donor))
        end)
       (fun error => ret (internalError error))).

Definition createDonor (req : Request) : M Response :=
  unlessAdmin req "Unauthorized. Only admin users can create new donors."
    (let donorData := reqBody req in
     try_catch
       (let* newDonor := create Donor donorData in
        ret (sendJson 201 (json_of_object newDonor)))
       (fun error => ret (internalError error))).

Definition updateDonor (req : Request) : M Response :=
  unlessAdmin req "Unauthorized. Only admin users can update donors."
    (let id := prop (params req) "id" in
     let donorData := reqBody req in
     try_catch
       (let* donor := findByPk Donor id in
        match donor with
        | None => ret (send 404 "Donor not found.")
        | Some donor =>
            let* donor := update Donor donor donorData in
            ret (sendJson 200 (json_of_object donor))
        end)
       (fun error => ret (internalError error))).

Definition deleteDonor (req : Request) : M Response :=
  unlessAdmin req "Unauthorized. Only admin users can delete donors."
    (let id := prop (params req) "id" in
     try_catch
       (let* donor := findByPk Donor id in
        match donor with
        | None => ret (send 404 "Donor not found.")
        | Some donor =>
            let* _ := destroy Donor donor in
            ret (send 200 "Donor deleted successfully.")
        end)
       (fun error => ret (internalError error))).
End DonorController.

(** src/controllers/projectController.js *)
Module ProjectController.
Section WithQuery.
Variable select :
  gmap string value -> gmap Z (gmap string value) -> list (gmap string value) * Z.
Variable meta : gmap string value -> Z -> json.

Definition getAllProjects (req : Request) : M Response :=
  if hasErrors req then ret (validationFailed req)
  else
    unlessAdmin req "Unauthorized. Only admin users can view projects."
      (try_catch
         (let* found := findAll Project (select (query req)) in
          ret (sendJson 200 (page_body (fst found) (meta (query req) (snd found)))))
         (fun error => ret (internalError error))).
End WithQuery.

Definition getProjectById (req : Request) : M Response :=
  if hasErrors req then ret (validationFailed req)
  else
    unlessAdmin req "Unauthorized. Only admin users can view projects."
      (let id := prop (params req) "id" in
       try_catch
         (let* project := findByPk Project id in
          match project with
          | None => ret (send 404 "Project not found.")
          | Some project => ret (sendJson 200 (json_of_object project))
          end)
         (fun error => ret (internalError error))).

Definition createProject (req : Request) : M Response :=
  if hasErrors req then ret (validationFailed req)
  else
    unlessAdmin req "Unauthorized. Only admin users can create projects."
      (let name := prop (reqBody req) "name" in
       let description := prop (reqBody req) "description" in
       let startDate := prop (reqBody req) "startDate" in
       let endDate := prop (reqBody req) "endDate" in
       let createdBy := prop (reqBody req) "createdBy" in
       try_catch
         (let* newProject := create Project
            {[ "name" := name; "description" := description;
               "startDate" := startDate; "endDate" := endDate;
               "createdBy" := createdBy ]} in
          ret (sendJson 201 (json_of_object newProject)))
         (fun error => ret (internalError error))).

Definition updateProjectById (req : Request) : M Response :=
  if hasErrors req then ret (validationFailed req)
  else
    unlessAdmin req "Unauthorized. Only admin users can update projects."
      (let id := prop (params req) "id" in
       let name := prop (reqBody req) "name" in
       let description := prop (reqBody req) "description" in
       let startDate := prop (reqBody req) "startDate" in
       let endDate := prop (reqBody req) "endDate" in
       try_catch
         (let* project := findByPk Project id in
          match project with
          | None => ret (send 404 "Project not found.")
          | Some project =>
              let* project := update Project project
                {[ "name" := name; "description" := description;
                   "startDate" := startDate; "endDate" := endDate ]} in
              ret (sendJson 200 (json_of_object project))
          end)
         (fun error => ret (internalError error))).

Definition deleteProjectById (req : Request) : M Response :=
  if hasErrors req then ret (validationFailed req)
  else
    unlessAdmin req "Unauthorized. Only admin users can delete projects."
      (let id := prop (params req) "id" in
       try_catch
         (let* project := findByPk Project id in
          match project with
          | None => ret (send 404 "Project not found.")
          | Some project =>
              let* _ := destroy Project project in
              ret (sendEmpty 204)
          end)
         (fun error => ret (internalError error))).
End ProjectController.

(** src/controllers/employeeController.js *)
Module EmployeeController.
Section WithQuery.
Variable select :
  gmap string value -> gmap Z (gmap string value) -> list (gmap string value) * Z.
Variable meta : gmap string value -> Z -> json.

Definition getAllEmployees (req : Request) : M Response :=
  if hasErrors req then ret (validationFailed req)
  else
    unlessAdmin req "Unauthorized. Only admin users can view employees."
      (try_catch
         (let* found := findAll Employee (select (query req)) in
          ret (sendJson 200 (page_body (fst found) (meta (query req) (snd found)))))
         (fun error => ret (internalError error))).
End WithQuery.

Definition getEmployeeById (req : Request) : M Response :=
  if hasErrors req then ret (validationFailed req)
  else
    unlessAdmin req "Unauthorized. Only admin users can view employees."
      (let id := prop (params req) "id" in
       try_catch
         (let* employee := findByPk Employee id in
          match employee with
          | None => ret (send 404 "Employee not found.")
          | Some employee => ret (sendJson 200 (json_of_object employee))
          end)
         (fun error => ret (internalError error))).

Definition createEmployee (req : Request) : M Response :=
  if hasErrors req then ret (validationFailed req)
  else
    unlessAdmin req "Unauthorized. Only admin users can create employees."
      (let employeeData := reqBody req in
       try_catch
         (let* newEmployee := create Employee employeeData in
          ret (sendJson 201 (json_of_object newEmployee)))
         (fun error => ret (internalError error))).

Definition updateEmployee (req : Request) : M Response :=
  if hasErrors req then ret (validationFailed req)
  else
    unlessAdmin req "Unauthorized. Only admin users can update employees."
      (let id := prop (params req) "id" in
       let employeeData := reqBody req in
       try_catch
         (let* updated := updateWhereId Employee id employeeData in
          if Z.eqb updated 0 then ret (send 404 "Employee not found.")
          else
            let* updatedEmployee := findByPk Employee id in
            ret (sendJson 200 (from_option json_of_object JNull updatedEmployee)))
         (fun error => ret (internalError error))).

Definition deleteEmployee (req : Request) : M Response :=
  if hasErrors req then ret (validationFailed req)
  else
    unlessAdmin req "Unauthorized. Only admin users can delete employees."
      (let id := prop (params req) "id" in
       try_catch
         (let* deleted := destroyWhereId Employee id in
          if Z.eqb deleted 0 then ret (send 404 "Employee not found.")
          else ret (send 200 "Employee deleted successfully."))
         (fun error => ret (internalError error))).
End EmployeeController.

(** The volunteer controller (src/unnamed/part_010, second file).  The file
    requires [Volunteer] and [User] and names a third model, [Task], that it
    never binds: evaluating an expression that mentions it throws. *)
Module VolunteerController.
Definition Volunteer : Model := "Volunteer".

(** [!["admin", "coordinator", "employee"].includes(currentUser.type) ||
     (currentUser.type === "coordinator" &&
      !currentUser.isAssignedToVolunteerTask)] *)
Definition lacksPrivileges (currentUser : gmap string value) : bool :=
  negb (existsb (strict_eq (prop currentUser "type"))
          [VStr "admin"; VStr "coordinator"; VStr "employee"])
  || (strict_eq (prop currentUser "type") (VStr "coordinator")
      && negb (truthy (prop currentUser "isAssignedToVolunteerTask"))).

(** The check every handler starts with, outside its [try]. *)
Definition unlessPrivileged (req : Request)
    (rest : gmap string value -> M Response) : M Response :=
  let* currentUser := currentUser req in
  if lacksPrivileges currentUser then
    ret (send 401 "Unauthorized. User lacks the required privileges.")
  else rest currentUser.

(** An expression that mentions [Task]: [{ model: Task, ... }] in an
    [include], or [Task.findByPk(task_id)]. *)
Definition Task {A} : M A := throw "Task is not defined".

(** [currentUser.type === "coordinator" &&
     volunteer.task_id !== currentUser.task_id] *)
Definition otherTask (currentUser volunteer : gmap string value) : bool :=
  strict_eq (prop currentUser "type") (VStr "coordinator")
  && strict_ne (prop volunteer "task_id") (prop currentUser "task_id").

(** [order.toLowerCase()] on the [order] of the query, ["asc"] when absent. *)
Definition lowerCaseOrder (req : Request) : M unit :=
  match prop (query req) "order" with
  | VUndefined | VStr _ => ret tt
  | _ => throw "order.toLowerCase is not a function"
  end.

Definition getAllVolunteers (req : Request) : M Response :=
  unlessPrivileged req (fun currentUser =>
    let* _ := lowerCaseOrder req in
    try_catch Task (fun error => ret (internalError error))).

Definition getVolunteerById (req : Request) : M Response :=
  unlessPrivileged req (fun currentUser =>
    try_catch Task (fun error => ret (internalError error))).

Definition createVolunteer (req : Request) : M Response :=
  unlessPrivileged req (fun currentUser =>
    let user_id := prop (reqBody req) "user_id" in
    let task_id := prop (reqBody req) "task_id" in
    if negb (truthy user_id) || negb (truthy task_id) then
      ret (send 400 "Bad request. User ID and Task ID are required.")
    else
      try_catch
        (let* user := findByPk User user_id in Task)
        (fun error => ret (internalError error))).

Definition deleteVolunteerById (req : Request) : M Response :=
  unlessPrivileged req (fun currentUser =>
    let id := prop (params req) "id" in
    try_catch
      (let* volunteer := findByPk Volunteer id in
       match volunteer with
       | None => ret (send 404 "Volunteer not found.")
       | Some volunteer =>
           if otherTask currentUser volunteer then
             ret (send 401 "Unauthorized. User lacks the required privileges.")
           else
             let* _ := destroy Volunteer volunteer in
             ret (sendEmpty 204)
       end)
      (fun error => ret (internalError error))).

Definition updateVolunteerById (req : Request) : M Response :=
  unlessPrivileged req (fun currentUser =>
    let id := prop (params req) "id" in
    let user_id := prop (reqBody req) "user_id" in
    let task_id := prop (reqBody req) "task_id" in
    if negb (truthy user_id) || negb (truthy task_id) then
      ret (send 400 "Bad request. User ID and Task ID are required.")
    else
      try_catch
        (let* volunteer := findByPk Volunteer id in
         match volunteer with
         | None => ret (send 404 "Volunteer not found.")
         | Some volunteer =>
             if otherTask currentUser volunteer then
               ret (send 401 "Unauthorized. User lacks the required privileges.")
             else
               let* _ := update Volunteer volunteer
                 {[ "user_id" := user_id; "task_id" := task_id ]} in
               Task
         end)
        (fun error => ret (internalError error))).
End VolunteerController.

(** The volunteer-attendance controller (src/unnamed/part_011): the handler
    that creates a record.  [Batch] is what the file requires from
    ["../models/Beneficiary"]. *)
Module VolunteerAttendanceController.

End VolunteerAttendanceController.

(** ** Routes *)

(** [router.verb(path, middleware, handler)]: the handler runs on the request
    the middleware passed on. *)
Definition chain (middleware : Request -> M Step) (handler : Request -> M Response)
  : Request -> M Response :=
  fun req =>
    let* step := middleware req in
    match step with
    | Sent r => ret r
    | Next req' => handler req'
    end.

(** src/routes/reportRoutes.js *)
Module ReportRoutes.
(** The three routes on ["/:id"]. *)
Inductive ById := GET | PUT | DELETE.

Definition handler (verb : ById) : Request -> M Response :=
  match verb with
  | GET => ReportController.getReportById
  | PUT => ReportController.updateReportById
  | DELETE => ReportController.deleteReportById
  end.

Section WithJwt.
Variable jwt_verify : value -> value -> result (gmap string value).
Variable SECRET : value.

(** [router.get("/:id", authMiddleware, reportController.getReportById)] and
    its two siblings. *)
Definition byId (verb : ById) : Request -> M Response :=
  chain (AuthMiddleware.authMiddleware jwt_verify SECRET) (handler verb).

(** [router.post("/", authMiddleware, reportController.createReport)] *)
Definition post : Request -> M Response :=
  chain (AuthMiddleware.authMiddleware jwt_verify SECRET) ReportController.createReport.
End WithJwt.
End ReportRoutes.

(** src/routes/authRoutes.js *)
Module AuthRoutes.
Section WithLibraries.
Variable jwt_verify : value -> value -> result (gmap string value).
Variable bcrypt_hashSync : value -> Z -> result string.
Variable SECRET : value.


(** [router.post("/register/ngoadmin", authMiddleware,
    authController.ngoAdminRegister)] *)
Definition registerNgoAdmin : Request -> M Response :=
  chain (AuthMiddleware.authMiddleware jwt_verify SECRET)
        (AuthController.ngoAdminRegister bcrypt_hashSync).
End WithLibraries.
End AuthRoutes.

(** src/routes/adminRoutes.js: [router.use(authenticateToken)] puts the
    middleware in front of every route. *)
Module AdminRoutes.
Inductive Route := GetAll | GetById | Post | Put | Delete.

Section WithLibraries.
Variable jwt_verify : value -> value -> result (gmap string value).
Variable SECRET : value.
Variable select :
  gmap string value -> gmap Z (gmap string value) -> list (gmap string value).

Definition handler (r : Route) : Request -> M Response :=
  match r with
  | GetAll => AdminController.getAllAdmins select
  | GetById => AdminController.getAdminById
  | Post => AdminController.createAdmin
  | Put => AdminController.updateAdmin
  | Delete => AdminController.deleteAdmin
  end.

Definition route (r : Route) : Request -> M Response :=
  chain (AuthMiddleware.authMiddleware jwt_verify SECRET) (handler r).
End WithLibraries.
End AdminRoutes.

(** src/routes/employeeRoutes.js: the handlers are routed alone. *)
Module EmployeeRoutes.
Inductive Route := GetAll | GetById | Post | Put | Delete.

Section WithQuery.
Variable select :
  gmap string value -> gmap Z (gmap string value) -> list (gmap string value) * Z.
Variable meta : gmap string value -> Z -> json.

Definition route (r : Route) : Request -> M Response :=
  match r with
  | GetAll => EmployeeController.getAllEmployees select meta
  | GetById => EmployeeController.getEmployeeById
  | Post => EmployeeController.createEmployee
  | Put => EmployeeController.updateEmployee
  | Delete => EmployeeController.deleteEmployee
  end.
End WithQuery.
End EmployeeRoutes.

(** The volunteer routes (src/unnamed/part_001): the handlers are routed
    alone as well. *)
Module VolunteerRoutes.
Inductive Route := GetAll | GetById | Post | Delete | Put.

Definition route (r : Route) : Request -> M Response :=
  match r with
  | GetAll => VolunteerController.getAllVolunteers
  | GetById => VolunteerController.getVolunteerById
  | Post => VolunteerController.createVolunteer
  | Delete => VolunteerController.deleteVolunteerById
  | Put => VolunteerController.updateVolunteerById
  end.
End VolunteerRoutes.

(** The routes of the event router (src/unnamed/part_003):
    [router.verb(path, authMiddleware, adminMiddleware, handler)]. *)
Module EventRouter.
Inductive Route := GetAll | GetById | Post | Put | Delete.

Section WithLibraries.
Variable jwt_verify : value -> value -> result (gmap string value).
Variable SECRET : value.
Variable select :
  gmap string value -> gmap Z (gmap string value) -> list (gmap string value) * Z.
Variable meta : gmap string value -> Z -> json.

Definition handler (r : Route) : Request -> M Response :=
  match r with
  | GetAll => EventController.getAllEvents select meta
  | GetById => EventController.getEventById
  | Post => EventController.createEvent
  | Put => EventController.updateEvent
  | Delete => EventController.deleteEvent
  end.

Definition route (r : Route) : Request -> M Response :=
  chain (AuthMiddleware.authMiddleware jwt_verify SECRET)
        (chain EventRoutes.adminMiddleware (handler r)).
End WithLibraries.
End EventRouter.

(** ** The operations behind a role check

    The handlers above that refuse a principal, with the request run through
    each. *)
Module Protected.
Inductive Crud := GetAll | GetById | Create | Update | Delete.
Inductive AdminWrite := CreateAdmin | UpdateAdmin | DeleteAdmin.

Inductive Operation :=
| EventsAdminGate
| ReportById (verb : ReportRoutes.ById)
| Events (h : Crud)
| Donors (h : Crud)
| Projects (h : Crud)
| Employees (h : Crud)
| Beneficiaries (h : Crud)
| Users (h : Crud)
| Admins (h : AdminWrite)
| NgoAdminRegister
| VolunteerRegister.

(** A handler as a last step of the chain. *)
Definition answer (handler : Request -> M Response) (req : Request) : M Step :=
  let* r := handler req in ret (Sent r).

Section WithLibraries.
Variable bcrypt_hashSync : value -> Z -> result string.
Variable select :
  gmap string value -> gmap Z (gmap string value) -> list (gmap string value) * Z.
Variable meta : gmap string value -> Z -> json.

Definition run (op : Operation) : Request -> M Step :=
  match op with
  | EventsAdminGate => EventRoutes.adminMiddleware
  | ReportById verb => answer (ReportRoutes.handler verb)
  | Events GetAll => answer (EventController.getAllEvents select meta)
  | Events GetById => answer EventController.getEventById
  | Events Create => answer EventController.createEvent
  | Events Update => answer EventController.updateEvent
  | Events Delete => answer EventController.deleteEvent
  | Donors GetAll => answer (DonorController.getAllDonors select meta)
  | Donors GetById => answer DonorController.getDonorById
  | Donors Create => answer DonorController.createDonor
  | Donors Update => answer DonorController.updateDonor
  | Donors Delete => answer DonorController.deleteDonor
  | Projects GetAll => answer (ProjectController.getAllProjects select meta)
  | Projects GetById => answer ProjectController.getProjectById
  | Projects Create => answer ProjectController.createProject
  | Projects Update => answer ProjectController.updateProjectById
  | Projects Delete => answer ProjectController.deleteProjectById
  | Employees GetAll => answer (EmployeeController.getAllEmployees select meta)
  | Employees GetById => answer EmployeeController.getEmployeeById
  | Employees Create => answer EmployeeController.createEmployee
  | Employees Update => answer EmployeeController.updateEmployee
  | Employees Delete => answer EmployeeController.deleteEmployee
  | Beneficiaries GetAll =>
      answer (BeneficiaryController.getAllBeneficiaries select meta)
  | Beneficiaries GetById => answer BeneficiaryController.getBeneficiaryById
  | Beneficiaries Create => answer BeneficiaryController.createBeneficiary
  | Beneficiaries Update => answer BeneficiaryController.updateBeneficiary
  | Beneficiaries Delete => answer BeneficiaryController.deleteBeneficiary
  | Users GetAll => answer (UserController.getAllUsers select meta)
  | Users GetById => answer UserController.getUserById
  | Users Create => answer UserController.createUser
  | Users Update => answer UserController.updateUser
  | Users Delete => answer UserController.deleteUser
  | Admins CreateAdmin => answer AdminController.createAdmin
  | Admins UpdateAdmin => answer AdminController.updateAdmin
  | Admins DeleteAdmin => answer AdminController.deleteAdmin
  | NgoAdminRegister => answer (AuthController.ngoAdminRegister bcrypt_hashSync)
  | VolunteerRegister => answer (AuthControllerAlt.volunteerRegister bcrypt_hashSync)
  end.


End WithLibraries.
End Protected.

(** ** Resources

    The controllers that keep one table each, with the operations of
    [Protected] that delete a row and fetch one. *)
Module Resource.
Inductive t := Reports | Events | Donors | Projects | Employees | Beneficiaries | Users.



Definition getById (r : t) : Protected.Operation :=
  match r with
  | Reports => Protected.ReportById ReportRoutes.GET
  | Events => Protected.Events Protected.GetById
  | Donors => Protected.Donors Protected.GetById
  | Projects => Protected.Projects Protected.GetById
  | Employees => Protected.Employees Protected.GetById
  | Beneficiaries => Protected.Beneficiaries Protected.GetById
  | Users => Protected.Users Protected.GetById
  end.
End Resource.

(** The operations of [Protected] whose handler starts with
    [validationResult(req)]. *)
Definition validated (op : Protected.Operation) : bool :=
  match op with
  | Protected.ReportById _ | Protected.Projects _ | Protected.Employees _
  | Protected.Beneficiaries _ | Protected.Users _
  | Protected.Admins Protected.CreateAdmin
  | Protected.Admins Protected.UpdateAdmin => true
  | _ => false
  end.

(** The table an operation writes, if it writes. *)
Definition written (op : Protected.Operation) : Model :=
  match op with
  | Protected.EventsAdminGate | Protected.Events _ => Event
  | Protected.ReportById _ => Report
  | Protected.Donors _ => Donor
  | Protected.Projects _ => Project
  | Protected.Employees _ => Employee
  | Protected.Beneficiaries _ => Beneficiary
  | Protected.Users _ | Protected.Admins _
  | Protected.NgoAdminRegister | Protected.VolunteerRegister => User
  end.

(** Two stores that differ at most in one table. *)
Definition same_elsewhere (m : Model) (db db' : Db) : Prop :=
  readFault db' = readFault db /\ writeFault db' = writeFault db /\
  forall m', m' <> m -> rows m' db' = rows m' db.

(** A computation that leaves every table but one as it found it, however
    it ends. *)
Definition keeps {A} (m : Model) (c : M A) : Prop :=
  forall db out db', c db = (out, db') -> same_elsewhere m db db'.

(** ** Sample data

    A store with one admin and one volunteer, and library stand-ins that
    answer a handful of tokens and passwords, for the examples below. *)
Module Sample.
Definition alice : gmap string value :=
  {[ "id" := VNum 1; "username" := VStr "alice";
     "password" := VStr "$2a$08$fixedsalt.secret123"; "type" := VStr "admin" ]}.

Definition bob : gmap string value :=
  {[ "id" := VNum 2; "username" := VStr "bob";
     "password" := VStr "$2a$08$fixedsalt.hunter2"; "type" := VStr "volunteer" ]}.

Definition report7 : gmap string value :=
  {[ "id" := VNum 7; "beneficiary_id" := VNum 2; "aid_amount" := VNum 100;
     "aid_date" := VStr "2024-01-01"; "ngo_id" := VNum 3 ]}.

(** The principals the middleware attaches for them. *)
Definition admin_principal : gmap string value :=
  {[ "id" := VNum 1; "type" := VStr "admin" ]}.

Definition volunteer_principal : gmap string value :=
  {[ "id" := VNum 2; "type" := VStr "volunteer" ]}.

Definition db : Db :=
  {| tables := {[ "User" := {[ 1 := alice; 2 := bob ]};
                  "Report" := {[ 7 := report7 ]} ]};
     readFault := None; writeFault := None |}.

(** The same store while the connection is down. *)
Definition db_down : Db :=
  {| tables := tables db; readFault := Some "connect ECONNREFUSED";
     writeFault := Some "connect ECONNREFUSED" |}.

Definition SECRET : value := VStr "s3cret".

(** A verifier that knows four tokens: one of alice issued while she was a
    volunteer, one of bob, one of a user deleted since, and an expired one. *)
Definition jwt_verify (token secret : value) : result (gmap string value) :=
  if decide (token = VStr "alice.old.token") then
    Ok {[ "id" := VNum 1; "type" := VStr "volunteer" ]}
  else if decide (token = VStr "bob.token") then
    Ok {[ "id" := VNum 2; "type" := VStr "volunteer" ]}
  else if decide (token = VStr "ghost.token") then
    Ok {[ "id" := VNum 9; "type" := VStr "admin" ]}
  else if decide (token = VStr "expired.token") then Throw "jwt expired"
  else Throw "invalid signature".

Definition bcrypt_hashSync (password : value) (rounds : Z) : result string :=
  match password with
  | VStr p => Ok ("$2a$08$fixedsalt." ++ p)
  | _ => Throw "Illegal arguments"
  end.

Definition bcrypt_compareSync (password hash : value) : result bool :=
  match password, hash with
  | VStr p, VStr h => Ok (String.eqb ("$2a$08$fixedsalt." ++ p) h)
  | _, _ => Throw "Illegal arguments"
  end.

Definition jwt_segments (payload : gmap string value) (secret : value)
    (expiresIn : Z) : result (string * string * string) :=
  match secret with
  | VStr _ => Ok ("eyJhbGciOiJIUzI1NiJ9", "payload", "signature")
  | _ => Throw "secretOrPrivateKey must have a value"
  end.

Definition request (authorization : option string) (principal : option (gmap string value))
    (parameters body : gmap string value) : Request :=
  {| headers := from_option (fun a => {[ "Authorization" := a ]}) ∅ authorization;
     reqBody := body; params := parameters; query := ∅;
     user := principal; validationErrors := [] |}.

(** A request that failed validation. *)
Definition invalid_request : Request :=
  {| headers := ∅; reqBody := ∅; params := {[ "id" := VStr "abc" ]}; query := ∅;
     user := None;
     validationErrors := [JObj [("msg", JStr "Invalid value"); ("path", JStr "id")]] |}.

Definition volunteer4 : gmap string value :=
  {[ "id" := VNum 4; "user_id" := VNum 2; "task_id" := VNum 1 ]}.

(** The store with one volunteer record. *)
Definition db_with_volunteer : Db :=
  {| tables := <["Volunteer" := {[ 4 := volunteer4 ]}]> (tables db);
     readFault := None; writeFault := None |}.
End Sample.

(** * Properties *)

(** A run [H] that ended with another status than [Hs] says. *)
Ltac other_status H Hs := inversion H; subst; discriminate Hs.

(** ** The store *)

Lemma findByPk_absent_key (m : Model) (id : value) (db : Db) :
  id = VUndefined \/ id = VNull -> findByPk m id db = (Ok None, db).
Proof. intros [-> | ->]; reflexivity. Qed.

Lemma findByPk_found (m : Model) (id : value) (k : Z) (db : Db) :
  readFault db = None -> as_pk id = Ok (Some k) ->
  findByPk m id db = (Ok (rows m db !! k), db).
Proof.
  intros Hread Hpk. unfold findByPk. rewrite Hread, Hpk.
  destruct id; try reflexivity; discriminate.
Qed.

Lemma findByPk_fault (m : Model) (id : value) (e : string) (db : Db) :
  readFault db = Some e -> id <> VUndefined -> id <> VNull ->
  findByPk m id db = (Throw e, db).
Proof.
  intros Hread Hu Hn. unfold findByPk. rewrite Hread.
  destruct id; try reflexivity; congruence.
Qed.

(** A query never changes the store. *)
Lemma findByPk_reads_only (m : Model) (id : value) (db : Db) :
  snd (findByPk m id db) = db.
Proof.
  unfold findByPk.
  destruct id; try reflexivity;
    (destruct (readFault db); [reflexivity |]);
    (match goal with |- context [as_pk ?v] => destruct (as_pk v) as [[k|]|] end);
    reflexivity.
Qed.

(** What a successful lookup by key says about the table. *)
Lemma findByPk_Some_inv (m : Model) (id : value) (row : gmap string value)
    (db db' : Db) :
  findByPk m id db = (Ok (Some row), db') ->
  exists k, as_pk id = Ok (Some k) /\ rows m db !! k = Some row /\
            readFault db = None /\ db' = db.
Proof.
  unfold findByPk. intros H.
  destruct id; try discriminate;
    (destruct (readFault db) eqn:Hread; [discriminate |]);
    (match type of H with context [as_pk ?v] =>
       destruct (as_pk v) as [[k|]|] eqn:Hpk end); try discriminate;
    inversion H; subst; exists k; auto.
Qed.

Lemma fresh_id_above (t : gmap Z (gmap string value)) (k : Z) :
  is_Some (t !! k) -> k < fresh_id t.
Proof.
  unfold fresh_id.
  cut (k <= map_fold (fun k _ acc => Z.max k acc) 0 t \/ t !! k = None).
  { intros [H | H] Hk; [lia | rewrite H in Hk; destruct Hk; discriminate]. }
  revert k.
  apply (map_fold_weak_ind
    (fun b (m : gmap Z (gmap string value)) => forall k, k <= b \/ m !! k = None)).
  - intros k. right. apply lookup_empty.
  - intros i x m r Hi IH k.
    destruct (decide (i = k)) as [-> | Hne]; [left; lia |].
    rewrite lookup_insert_ne by done.
    destruct (IH k); [left; lia | right; done].
Qed.

Lemma fresh_id_unused (t : gmap Z (gmap string value)) : t !! fresh_id t = None.
Proof.
  destruct (t !! fresh_id t) eqn:H; [| reflexivity].
  assert (fresh_id t < fresh_id t) by (apply fresh_id_above; eauto). lia.
Qed.

(** ** Bodies *)

Lemma has_key_scalar (k : string) (v : value) (j : json) :
  json_of_value v = Some j -> has_key k j = false.
Proof. destruct v; simpl; intros H; inversion H; reflexivity. Qed.

(** A property that is set shows in the serialised object. *)
Lemma has_key_json_of_object (o : gmap string value) (k : string) (v : value) :
  o !! k = Some v -> v <> VUndefined -> has_key k (json_of_object o) = true.
Proof.
  intros Hk Hv. simpl. apply existsb_exists.
  destruct (json_of_value v) as [j|] eqn:Hj; [| destruct v; simpl in Hj; congruence].
  exists (k, j). split.
  - apply list_elem_of_In. unfold json_fields. apply list_elem_of_omap.
    exists (k, v). split; [by apply elem_of_map_to_list |].
    simpl. rewrite Hj. reflexivity.
  - simpl. rewrite String.eqb_refl. reflexivity.
Qed.

(** A property that was deleted does not. *)
Lemma has_key_json_of_object_deleted (o : gmap string value) (k : string) :
  has_key k (json_of_object (delete k o)) = false.
Proof.
  simpl. apply not_true_is_false. intros H.
  apply existsb_exists in H as [[k' j] [Hin Hk]].
  apply list_elem_of_In in Hin. unfold json_fields in Hin.
  apply list_elem_of_omap in Hin as [[k'' v] [Hin Hj]].
  apply elem_of_map_to_list in Hin. simpl in Hj.
  destruct (json_of_value v) as [j'|] eqn:Hv; [| discriminate].
  inversion Hj; subst. simpl in Hk.
  apply orb_true_iff in Hk as [Hk | Hk].
  - apply String.eqb_eq in Hk. subst. rewrite lookup_delete_eq in Hin. discriminate.
  - rewrite (has_key_scalar _ _ _ Hv) in Hk. discriminate.
Qed.

(** ** Authentication middleware *)

Section AuthMiddlewareFacts.
Variable jwt_verify : value -> value -> result (gmap string value).
Variable SECRET : value.

Let authMiddleware := AuthMiddleware.authMiddleware jwt_verify SECRET.
Let tokenWithoutBearer := AuthMiddleware.tokenWithoutBearer.

(** The middleware never lets an exception escape and never writes. *)
Lemma authMiddleware_answers (req : Request) (db : Db) :
  exists step, authMiddleware req db = (Ok step, db).
Proof.
  unfold authMiddleware, AuthMiddleware.authMiddleware.
  destruct (header req "Authorization") as [[|c token]|]; try (eexists; reflexivity).
  unfold try_catch, bind, lift, ret.
  destruct (jwt_verify _ SECRET) as [decoded|e]; [| eexists; reflexivity].
  pose proof (findByPk_reads_only User (prop decoded "id") db) as Hdb.
  destruct (findByPk User (prop decoded "id") db) as [[[u|]|e] db'];
    simpl in Hdb; subst; eexists; reflexivity.
Qed.

Lemma authMiddleware_no_header (req : Request) (db : Db) :
  header req "Authorization" = None \/ header req "Authorization" = Some "" ->
  authMiddleware req db =
    (Ok (Sent (send 401 "Access denied. No token provided.")), db).
Proof.
  unfold authMiddleware, AuthMiddleware.authMiddleware.
  intros [-> | ->]; reflexivity.
Qed.

Lemma authMiddleware_rejected_token (req : Request) (db : Db) (token e : string) :
  header req "Authorization" = Some token -> token <> "" ->
  jwt_verify (tokenWithoutBearer token) SECRET = Throw e ->
  authMiddleware req db = (Ok (Sent (send 400 "Invalid token.")), db).
Proof.
  unfold authMiddleware, AuthMiddleware.authMiddleware, tokenWithoutBearer.
  intros -> Hne Hv. destruct token; [done |].
  unfold try_catch, bind, lift. rewrite Hv. reflexivity.
Qed.

(** After a successful verification the outcome is that of the lookup. *)
Lemma authMiddleware_verified (req : Request) (db : Db) (token : string)
    (decoded : gmap string value) :
  header req "Authorization" = Some token -> token <> "" ->
  jwt_verify (tokenWithoutBearer token) SECRET = Ok decoded ->
  authMiddleware req db =
    match findByPk User (prop decoded "id") db with
    | (Ok None, _) => (Ok (Sent (send 404 "User not found.")), db)
    | (Ok (Some user), _) =>
        (Ok (Next (set_user req
           {[ "id" := prop decoded "id"; "type" := prop user "type" ]})), db)
    | (Throw _, _) => (Ok (Sent (send 400 "Invalid token.")), db)
    end.
Proof.
  unfold authMiddleware, AuthMiddleware.authMiddleware, tokenWithoutBearer.
  intros -> Hne Hv. destruct token; [done |].
  unfold try_catch, bind, lift, ret. rewrite Hv.
  pose proof (findByPk_reads_only User (prop decoded "id") db) as Hdb.
  destruct (findByPk User (prop decoded "id") db) as [[[u|]|e] db'];
    simpl in Hdb; subst; reflexivity.
Qed.

(** Every run that calls [next()] went through a verified token and a row
    of the user table. *)
Lemma authMiddleware_next_inv (req req' : Request) (db db' : Db) :
  authMiddleware req db = (Ok (Next req'), db') ->
  exists token decoded k row,
    header req "Authorization" = Some token /\
    jwt_verify (tokenWithoutBearer token) SECRET = Ok decoded /\
    as_pk (prop decoded "id") = Ok (Some k) /\
    rows User db !! k = Some row /\
    req' = set_user req {[ "id" := prop decoded "id"; "type" := prop row "type" ]} /\
    db' = db.
Proof.
  unfold authMiddleware, AuthMiddleware.authMiddleware, tokenWithoutBearer.
  intros H.
  destruct (header req "Authorization") as [[|c token]|] eqn:Hh; try discriminate.
  unfold try_catch, bind, lift, ret in H.
  destruct (jwt_verify _ SECRET) as [decoded|e] eqn:Hv; [| discriminate].
  destruct (findByPk User (prop decoded "id") db) as [[[u|]|e] db1] eqn:Hf;
    try discriminate.
  apply findByPk_Some_inv in Hf as (k & Hpk & Hrow & _ & ->).
  inversion H; subst.
  exists (String c token), decoded, k, u. repeat split; assumption || reflexivity.
Qed.

(** The four ways the middleware ends. *)
Lemma authMiddleware_outcomes (req : Request) (db : Db) :
  authMiddleware req db = (Ok (Sent (send 401 "Access denied. No token provided.")), db)
  \/ authMiddleware req db = (Ok (Sent (send 400 "Invalid token.")), db)
  \/ authMiddleware req db = (Ok (Sent (send 404 "User not found.")), db)
  \/ exists principal, authMiddleware req db = (Ok (Next (set_user req principal)), db).
Proof.
  destruct (header req "Authorization") as [token|] eqn:Hh;
    [| left; apply authMiddleware_no_header; auto].
  destruct (decide (token = "")) as [-> | Hne];
    [left; apply authMiddleware_no_header; auto |].
  destruct (jwt_verify (tokenWithoutBearer token) SECRET) as [decoded|e] eqn:Hv.
  - rewrite (authMiddleware_verified req db token decoded Hh Hne Hv).
    destruct (findByPk User (prop decoded "id") db) as [[[u|]|e] db'].
    + right; right; right. eexists; reflexivity.
    + right; right; left. reflexivity.
    + right; left. reflexivity.
  - right; left. by apply (authMiddleware_rejected_token req db token e).
Qed.


(** C9 (as the code behaves): a request whose token verifies and whose
    subject id is a key, handled while the store raises on queries, is
    answered 400 "Invalid token." by the catch-all of the middleware, not
    with a 500-class status. *)
Theorem store_error_answered_as_invalid_token (req : Request) (db : Db)
    (token e : string) (decoded : gmap string value) :
  header req "Authorization" = Some token -> token <> "" ->
  jwt_verify (tokenWithoutBearer token) SECRET = Ok decoded ->
  prop decoded "id" <> VUndefined -> prop decoded "id" <> VNull ->
  readFault db = Some e ->
  authMiddleware req db = (Ok (Sent (send 400 "Invalid token.")), db).
Proof.
  intros Hh Hne Hv Hu Hn Hread.
  rewrite (authMiddleware_verified req db token decoded Hh Hne Hv).
  rewrite (findByPk_fault User _ e db Hread Hu Hn). reflexivity.
Qed.
End AuthMiddlewareFacts.


Lemma store_error_answered_as_invalid_token_witness :
  AuthMiddleware.authMiddleware Sample.jwt_verify Sample.SECRET
    (Sample.request (Some "Bearer bob.token") None ∅ ∅) Sample.db_down
  = (Ok (Sent (send 400 "Invalid token.")), Sample.db_down).
Proof.
  apply (store_error_answered_as_invalid_token Sample.jwt_verify Sample.SECRET
           _ _ "Bearer bob.token" "connect ECONNREFUSED"
           {[ "id" := VNum 2; "type" := VStr "volunteer" ]});
    vm_compute; (reflexivity || discriminate).
Defined.

Section AuthMiddlewareAltFacts.
Variable jwt_verify : value -> value -> result (gmap string value).
Variable SECRET : value.

Let authMiddleware := AuthMiddlewareAlt.authMiddleware jwt_verify SECRET.

(** C1 (as the second version of the middleware behaves): when the
    verification of the token throws, the 400 body is
    [{ message: "Invalid token.", error: <message of the exception> }]:
    the verifier's own message reaches the client, so an expired token and
    a forged one are answered differently. *)
Theorem rejected_token_body_carries_verifier_message (req : Request) (db : Db)
    (token e : string) :
  header req "Authorization" = Some token ->
  truthy (at_index (split " " token) 1) = true ->
  jwt_verify (at_index (split " " token) 1) SECRET = Throw e ->
  authMiddleware req db =
    (Ok (Sent (sendJson 400
       (JObj [("message", JStr "Invalid token."); ("error", JStr e)]))), db).
Proof.
  unfold authMiddleware, AuthMiddlewareAlt.authMiddleware.
  intros -> Ht Hv. destruct token as [|c token]; [discriminate Ht |].
  rewrite Ht. simpl negb. cbv iota.
  unfold try_catch, bind, lift. rewrite Hv. reflexivity.
Qed.
End AuthMiddlewareAltFacts.

Lemma rejected_token_body_carries_verifier_message_witness :
  AuthMiddlewareAlt.authMiddleware Sample.jwt_verify Sample.SECRET
    (Sample.request (Some "Bearer expired.token") None ∅ ∅) Sample.db
  = (Ok (Sent (sendJson 400
       (JObj [("message", JStr "Invalid token."); ("error", JStr "jwt expired")]))),
     Sample.db).
Proof.
  apply (rejected_token_body_carries_verifier_message Sample.jwt_verify Sample.SECRET
           _ _ "Bearer expired.token" "jwt expired");
    vm_compute; reflexivity.
Defined.

(** ** Login *)

Lemma first_where_None (k : string) (v : value) (t : gmap Z (gmap string value)) :
  first_where k v t = None <->
  forall i row, t !! i = Some row -> prop row k <> v.
Proof.
  unfold first_where. rewrite fmap_None, head_None. split.
  - intros Hnil i row Hrow Hk.
    apply (filter_nil_not_elem_of _ _ (i, row) Hnil); [exact Hk |].
    by apply elem_of_map_to_list.
  - intros Hall.
    destruct (filter _ (map_to_list t)) as [|[i row] l] eqn:Hf; [reflexivity |].
    assert (Hin : (i, row) ∈ filter (fun kr => prop (snd kr) k = v) (map_to_list t))
      by (rewrite Hf; left).
    apply list_elem_of_filter in Hin as [Hk Hin].
    apply elem_of_map_to_list in Hin. destruct (Hall i row Hin Hk).
Qed.

Lemma first_where_Some (k : string) (v : value) (t : gmap Z (gmap string value))
    (row : gmap string value) :
  first_where k v t = Some row ->
  exists i, t !! i = Some row /\ prop row k = v.
Proof.
  unfold first_where. intros H.
  apply fmap_Some in H as ([i r] & Hhead & ->).
  apply head_Some_elem_of in Hhead.
  apply list_elem_of_filter in Hhead as [Hk Hin].
  apply elem_of_map_to_list in Hin. exists i. auto.
Qed.

(** With unique usernames the lookup by username finds the credential that
    carries it. *)
Lemma findOne_username (db : Db) (username : value) (i : Z) (user : gmap string value) :
  readFault db = None -> username <> VUndefined -> unique_usernames db ->
  rows User db !! i = Some user -> prop user "username" = username ->
  findOne User "username" username db = (Ok (Some user), db).
Proof.
  intros Hread Hu Huniq Hrow Hname. unfold findOne. rewrite Hread.
  assert (Hf : first_where "username" username (rows User db) = Some user).
  { destruct (first_where "username" username (rows User db)) as [user'|] eqn:Hf.
    - apply first_where_Some in Hf as (j & Hrow' & Hname').
      assert (i = j) by (apply (Huniq i j user user'); congruence).
      congruence.
    - rewrite first_where_None in Hf. destruct (Hf i user Hrow Hname). }
  rewrite Hf. destruct username; done.
Qed.

Lemma findOne_no_username (db : Db) (username : value) :
  readFault db = None -> username <> VUndefined ->
  (forall i row, rows User db !! i = Some row -> prop row "username" <> username) ->
  findOne User "username" username db = (Ok None, db).
Proof.
  intros Hread Hu Hall. unfold findOne. rewrite Hread.
  apply first_where_None in Hall. rewrite Hall. destruct username; done.
Qed.

(** A signed token has its two dots. *)
Lemma compact_nonempty (segments : string * string * string) : compact segments <> "".
Proof.
  destruct segments as [[h p] s]. unfold compact.
  destruct h; simpl; discriminate.
Qed.

Section LoginFacts.
Variable bcrypt_compareSync : value -> value -> result bool.
Variable jwt_segments :
  gmap string value -> value -> Z -> result (string * string * string).
Variable SECRET : value.

Let login := AuthController.login bcrypt_compareSync jwt_segments SECRET.
Let loginAlt := AuthControllerAlt.login bcrypt_compareSync jwt_segments SECRET.

Let granted (token : string) : Response :=
  sendJson 200 (JObj [("auth", JBool true); ("token", JStr token)]).
Let refused : Response :=
  sendJson 401 (JObj [("auth", JBool false); ("token", JNull)]).

Lemma login_found (req : Request) (db : Db) (user : gmap string value) :
  findOne User "username" (prop (reqBody req) "username") db = (Ok (Some user), db) ->
  login req db =
    match bcrypt_compareSync (prop (reqBody req) "password") (prop user "password") with
    | Ok true =>
        match jwt_segments {[ "id" := prop user "id"; "type" := prop user "type" ]}
                SECRET 86400 with
        | Ok segments => (Ok (granted (compact segments)), db)
        | Throw _ => (Ok (send 500 "Error on the server."), db)
        end
    | Ok false => (Ok refused, db)
    | Throw _ => (Ok (send 500 "Error on the server."), db)
    end.
Proof.
  intros Hf. unfold login, AuthController.login, AuthController.jwt_sign.
  unfold try_catch, bind, lift, ret. rewrite Hf.
  destruct (bcrypt_compareSync _ _) as [[|]|e]; try reflexivity.
  simpl. destruct (jwt_segments _ SECRET 86400) as [segments|e]; reflexivity.
Qed.

Lemma loginAlt_found (req : Request) (db : Db) (user : gmap string value) :
  findOne User "username" (prop (reqBody req) "username") db = (Ok (Some user), db) ->
  loginAlt req db =
    match bcrypt_compareSync (prop (reqBody req) "password") (prop user "password") with
    | Ok true =>
        match jwt_segments {[ "id" := prop user "id" ]} SECRET 86400 with
        | Ok segments => (Ok (granted (compact segments)), db)
        | Throw _ => (Ok (send 500 "Error on the server."), db)
        end
    | Ok false => (Ok refused, db)
    | Throw _ => (Ok (send 500 "Error on the server."), db)
    end.
Proof.
  intros Hf. unfold loginAlt, AuthControllerAlt.login, AuthControllerAlt.jwt_sign.
  unfold try_catch, bind, lift, ret. rewrite Hf.
  destruct (bcrypt_compareSync _ _) as [[|]|e]; try reflexivity.
  simpl. destruct (jwt_segments _ SECRET 86400) as [segments|e]; reflexivity.
Qed.

Lemma login_not_found (req : Request) (db : Db) :
  findOne User "username" (prop (reqBody req) "username") db = (Ok None, db) ->
  login req db = (Ok (sendJson 404 (JObj [("message", JStr "User not found.")])), db)
  /\ loginAlt req db = (Ok (send 404 "User not found."), db).
Proof.
  intros Hf. unfold login, loginAlt, AuthController.login, AuthControllerAlt.login.
  unfold try_catch, bind, lift, ret. rewrite Hf. split; reflexivity.
Qed.

(** C2: for a login request that names a username, handled while the store
    answers and usernames are unique, in both versions of the controller:
    when a credential carries the username and the password verifies
    against its stored hash, the response is 200 with body
    [{ auth: true, token }] and a non-empty token (the token the signing
    produces); when the password does not verify, 401 with
    [{ auth: false, token: null }]; when no credential carries the username,
    404. *)
Theorem login_outcomes (req : Request) (db : Db) :
  let username := prop (reqBody req) "username" in
  let password := prop (reqBody req) "password" in
  readFault db = None -> username <> VUndefined -> unique_usernames db ->
  (forall i user,
      rows User db !! i = Some user -> prop user "username" = username ->
      (bcrypt_compareSync password (prop user "password") = Ok true ->
         (forall segments,
             jwt_segments {[ "id" := prop user "id"; "type" := prop user "type" ]}
               SECRET 86400 = Ok segments ->
             compact segments <> "" /\
             login req db =
               (Ok (sendJson 200
                  (JObj [("auth", JBool true); ("token", JStr (compact segments))])),
                db)) /\
         (forall segments,
             jwt_segments {[ "id" := prop user "id" ]} SECRET 86400 = Ok segments ->
             compact segments <> "" /\
             loginAlt req db =
               (Ok (sendJson 200
                  (JObj [("auth", JBool true); ("token", JStr (compact segments))])),
                db))) /\
      (bcrypt_compareSync password (prop user "password") = Ok false ->
         login req db =
           (Ok (sendJson 401 (JObj [("auth", JBool false); ("token", JNull)])), db) /\
         loginAlt req db =
           (Ok (sendJson 401 (JObj [("auth", JBool false); ("token", JNull)])), db)))
  /\
  ((forall i row, rows User db !! i = Some row -> prop row "username" <> username) ->
   (exists r, login req db = (Ok r, db) /\ status r = 404) /\
   (exists r, loginAlt req db = (Ok r, db) /\ status r = 404)).
Proof.
  intros username password Hread Hu Huniq. split.
  - intros i user Hrow Hname.
    pose proof (findOne_username db username i user Hread Hu Huniq Hrow Hname) as Hf.
    rewrite (login_found req db user Hf), (loginAlt_found req db user Hf).
    fold password. split; intros Hc; rewrite Hc.
    + split; intros segments Hs; rewrite Hs;
        (split; [apply compact_nonempty | reflexivity]).
    + split; reflexivity.
  - intros Hnone.
    pose proof (findOne_no_username db username Hread Hu Hnone) as Hf.
    destruct (login_not_found req db Hf) as [-> ->].
    split; eexists; split; reflexivity.
Qed.
End LoginFacts.

Lemma sample_usernames_unique : unique_usernames Sample.db.
Proof.
  intros i j u v Hi Hj Huv.
  change (rows User Sample.db)
    with (<[1 := Sample.alice]> ({[ 2 := Sample.bob ]} : gmap Z (gmap string value)))
    in Hi, Hj.
  apply lookup_insert_Some in Hi as [[<- <-] | [_ Hi]];
    apply lookup_insert_Some in Hj as [[<- <-] | [_ Hj]];
    try apply lookup_singleton_Some in Hi as [<- <-];
    try apply lookup_singleton_Some in Hj as [<- <-];
    try reflexivity; vm_compute in Huv; discriminate.
Qed.

Lemma login_outcomes_witness :
  AuthController.login Sample.bcrypt_compareSync Sample.jwt_segments Sample.SECRET
    (Sample.request None None ∅
       {[ "username" := VStr "alice"; "password" := VStr "secret123" ]})
    Sample.db
  = (Ok (sendJson 200
       (JObj [("auth", JBool true);
              ("token", JStr "eyJhbGciOiJIUzI1NiJ9.payload.signature")])),
     Sample.db).
Proof.
  pose proof (login_outcomes Sample.bcrypt_compareSync Sample.jwt_segments Sample.SECRET
    (Sample.request None None ∅
       {[ "username" := VStr "alice"; "password" := VStr "secret123" ]})
    Sample.db) as H.
  cbv zeta in H.
  destruct H as [H _];
    [vm_compute; reflexivity | vm_compute; discriminate
    | exact sample_usernames_unique |].
  destruct (H 1 Sample.alice) as [Hok _]; [vm_compute; reflexivity .. |].
  destruct Hok as [Hmain _]; [vm_compute; reflexivity |].
  destruct (Hmain ("eyJhbGciOiJIUzI1NiJ9", "payload", "signature")) as [_ Hlogin];
    [vm_compute; reflexivity |].
  exact Hlogin.
Defined.

(** ** Reports *)

Lemma currentUser_some (req : Request) (p : gmap string value) (db : Db) :
  user req = Some p -> currentUser req db = (Ok p, db).
Proof. intros H. unfold currentUser. rewrite H. reflexivity. Qed.





(** The object [createReport] hands to [Report.create] names no key. *)
Lemma report_data_has_no_id (b a d n : value) :
  prop ({[ "beneficiary_id" := b; "aid_amount" := a; "aid_date" := d;
           "ngo_id" := n ]} : gmap string value) "id" = VUndefined.
Proof.
  unfold prop. rewrite !lookup_insert_ne by done.
  rewrite lookup_singleton_ne by done. reflexivity.
Qed.

(** What [createReport] does for a request that carries a principal. *)
Lemma createReport_created (req : Request) (p : gmap string value) (db db' : Db)
    (r : Response) :
  user req = Some p ->
  ReportController.createReport req db = (Ok r, db') -> status r = 201 ->
  exists k row,
    rows Report db !! k = None /\
    db' = set_rows Report (<[k := row]> (rows Report db)) db /\
    prop row "ngo_id" = stored (prop p "ngo_id").
Proof.
  intros Hu H Hs. unfold ReportController.createReport in H.
  destruct (hasErrors req); [other_status H Hs |].
  unfold try_catch, bind in H. rewrite (currentUser_some req p db Hu) in H.
  unfold create in H. rewrite report_data_has_no_id in H. simpl as_pk in H.
  destruct (writeFault db); [other_status H Hs |].
  unfold ret in H. inversion H; subst.
  eexists _, _. split; [apply fresh_id_unused | split; [reflexivity |]].
  unfold prop. rewrite lookup_fmap. rewrite !lookup_insert_ne by done.
  rewrite lookup_singleton_eq. reflexivity.
Qed.

Section PrincipalFacts.
Variable jwt_verify : value -> value -> result (gmap string value).
Variable SECRET : value.

Let authMiddleware := AuthMiddleware.authMiddleware jwt_verify SECRET.

(** C10: the principal the middleware attaches has exactly the properties
    [id] and [type].  Hence it is the scoped owner of no report whose
    [ngo_id] is set, and a report [createReport] stores for the request
    passed on has a null [ngo_id]. *)
Theorem middleware_principal_has_no_organization
    (req req' : Request) (db db' : Db) :
  authMiddleware req db = (Ok (Next req'), db') ->
  exists principal,
    user req' = Some principal /\
    dom principal = {[ "id"; "type" ]} /\
    (forall report,
        prop report "ngo_id" <> VUndefined ->
        ReportController.scopedOwner principal report = false) /\
    (forall r db'',
        ReportController.createReport req' db' = (Ok r, db'') -> status r = 201 ->
        exists k row,
          rows Report db' !! k = None /\
          db'' = set_rows Report (<[k := row]> (rows Report db')) db' /\
          prop row "ngo_id" = VNull).
Proof.
  intros H.
  apply authMiddleware_next_inv in H
    as (token & decoded & k & row & _ & _ & _ & _ & -> & ->).
  set (principal := ({[ "id" := prop decoded "id"; "type" := prop row "type" ]}
                     : gmap string value)).
  assert (Hngo : prop principal "ngo_id" = VUndefined).
  { unfold prop, principal. rewrite lookup_insert_ne by done.
    rewrite lookup_singleton_ne by done. reflexivity. }
  exists principal. split; [reflexivity | split; [| split]].
  - unfold principal. rewrite dom_insert_L, dom_singleton_L. reflexivity.
  - intros report Hset. unfold ReportController.scopedOwner.
    rewrite Hngo. unfold strict_eq at 2.
    rewrite bool_decide_eq_false_2 by congruence. apply andb_false_r.
  - intros r db'' Hc Hs.
    destruct (createReport_created (set_user req principal) principal db db'' r
                eq_refl Hc Hs)
      as (k' & row' & Hfresh & Hdb & Hrow).
    exists k', row'. rewrite Hngo in Hrow. auto.
Qed.
End PrincipalFacts.

Lemma middleware_principal_has_no_organization_witness :
  exists principal,
    user (set_user (Sample.request (Some "Bearer bob.token") None ∅ ∅)
            Sample.volunteer_principal) = Some principal /\
    dom principal = {[ "id"; "type" ]} /\
    (forall report,
        prop report "ngo_id" <> VUndefined ->
        ReportController.scopedOwner principal report = false) /\
    (forall r db'',
        ReportController.createReport
          (set_user (Sample.request (Some "Bearer bob.token") None ∅ ∅)
             Sample.volunteer_principal) Sample.db = (Ok r, db'') ->
        status r = 201 ->
        exists k row,
          rows Report Sample.db !! k = None /\
          db'' = set_rows Report (<[k := row]> (rows Report Sample.db)) Sample.db /\
          prop row "ngo_id" = VNull).
Proof.
  apply (middleware_principal_has_no_organization Sample.jwt_verify Sample.SECRET
           (Sample.request (Some "Bearer bob.token") None ∅ ∅) _ Sample.db Sample.db).
  vm_compute. reflexivity.
Defined.

(** ** Refusals *)

Lemma unlessAdmin_refused (req : Request) (p : gmap string value) (message : string)
    (rest : M Response) (db : Db) :
  user req = Some p -> prop p "type" <> VStr "admin" ->
  unlessAdmin req message rest db = (Ok (send 401 message), db).
Proof.
  intros Hu Hp. unfold unlessAdmin, bind. rewrite (currentUser_some req p db Hu).
  unfold strict_ne, strict_eq. rewrite bool_decide_eq_false_2 by exact Hp.
  reflexivity.
Qed.

Lemma unlessAdmin_admin (req : Request) (p : gmap string value) (message : string)
    (rest : M Response) (db : Db) :
  user req = Some p -> prop p "type" = VStr "admin" ->
  unlessAdmin req message rest db = rest db.
Proof.
  intros Hu Hp. unfold unlessAdmin, bind. rewrite (currentUser_some req p db Hu).
  unfold strict_ne, strict_eq. rewrite bool_decide_eq_true_2 by exact Hp.
  reflexivity.
Qed.


Section RefusalFacts.
Variable bcrypt_hashSync : value -> Z -> result string.
Variable select :
  gmap string value -> gmap Z (gmap string value) -> list (gmap string value) * Z.
Variable meta : gmap string value -> Z -> json.

Let ngoAdminRegister := AuthController.ngoAdminRegister bcrypt_hashSync.
Let volunteerRegister := AuthControllerAlt.volunteerRegister bcrypt_hashSync.




End RefusalFacts.

(** ** Passwords in bodies *)

Lemma json_fields_elem (o : gmap string value) (k : string) (v : value) (j : json) :
  o !! k = Some v -> json_of_value v = Some j -> (k, j) ∈ json_fields o.
Proof.
  intros Hk Hj. unfold json_fields. apply list_elem_of_omap.
  exists (k, v). split; [by apply elem_of_map_to_list |].
  simpl. rewrite Hj. reflexivity.
Qed.

(** The handlers that delete the password before they answer. *)
Lemma getBeneficiaryById_hides_password (req : Request) (db db' : Db) (r : Response) :
  BeneficiaryController.getBeneficiaryById req db = (Ok r, db') -> status r = 200 ->
  body_has_key "password" r = false.
Proof.
  unfold BeneficiaryController.getBeneficiaryById, unlessAdmin. intros H Hs.
  destruct (hasErrors req); [other_status H Hs |].
  unfold bind, currentUser in H.
  destruct (user req) as [p|]; [| discriminate H]. unfold ret at 1 in H.
  destruct (strict_ne _ _); [other_status H Hs |].
  unfold try_catch, bind, ret in H.
  destruct (findByPk Beneficiary _ db) as [[[b|]|e] db1];
    inversion H; subst; try discriminate Hs.
  apply has_key_json_of_object_deleted.
Qed.

Lemma createUser_hides_password (req : Request) (db db' : Db) (r : Response) :
  UserController.createUser req db = (Ok r, db') -> status r = 201 ->
  body_has_key "password" r = false.
Proof.
  unfold UserController.createUser, unlessAdmin. intros H Hs.
  destruct (hasErrors req); [other_status H Hs |].
  unfold bind, currentUser in H.
  destruct (user req) as [p|]; [| discriminate H]. unfold ret at 1 in H.
  destruct (strict_ne _ _); [other_status H Hs |].
  unfold try_catch, bind, ret in H.
  destruct (create User _ db) as [[u|e] db1];
    inversion H; subst; try discriminate Hs.
  apply has_key_json_of_object_deleted.
Qed.

(** C6 (as the code behaves): [createBeneficiary], called by an admin with a
    body that carries a password and names no key, answers 201 with the row
    it stored, password included; and [getAdminById] answers 200 with the
    stored user row, password hash included. *)
Theorem password_reaches_response_body :
  (forall (req : Request) (db : Db) (p : gmap string value) (password : string),
      hasErrors req = false ->
      user req = Some p -> prop p "type" = VStr "admin" ->
      writeFault db = None ->
      prop (reqBody req) "id" = VUndefined ->
      reqBody req !! "password" = Some (VStr password) ->
      exists row db',
        BeneficiaryController.createBeneficiary req db
          = (Ok (sendJson 201 (json_of_object row)), db') /\
        ("password", JStr password) ∈ json_fields row /\
        body_has_key "password" (sendJson 201 (json_of_object row)) = true)
  /\
  (forall (req : Request) (db : Db) (k : Z) (row : gmap string value) (hash : string),
      readFault db = None ->
      as_pk (prop (params req) "id") = Ok (Some k) ->
      rows User db !! k = Some row ->
      row !! "password" = Some (VStr hash) ->
      AdminController.getAdminById req db = (Ok (sendJson 200 (json_of_object row)), db) /\
      ("password", JStr hash) ∈ json_fields row /\
      body_has_key "password" (sendJson 200 (json_of_object row)) = true).
Proof.
  split.
  - intros req db p password He Hu Hp Hw Hid Hpw.
    unfold BeneficiaryController.createBeneficiary. rewrite He.
    rewrite (unlessAdmin_admin req p _ _ db Hu Hp).
    unfold try_catch, bind, create. rewrite Hw, Hid. simpl as_pk. cbv iota beta.
    eexists _, _. split; [reflexivity |].
    assert (Hrow : (stored <$> <["id" := VNum (fresh_id (rows Beneficiary db))]>
                      (reqBody req)) !! "password" = Some (VStr password)).
    { rewrite lookup_fmap, lookup_insert_ne by done. rewrite Hpw. reflexivity. }
    split.
    + by apply (json_fields_elem _ _ (VStr password)).
    + by apply (has_key_json_of_object _ _ (VStr password)).
  - intros req db k row hash Hread Hpk Hrow Hpw.
    unfold AdminController.getAdminById, try_catch, bind.
    rewrite (findByPk_found User _ k db Hread Hpk), Hrow.
    split; [reflexivity | split].
    + by apply (json_fields_elem _ _ (VStr hash)).
    + by apply (has_key_json_of_object _ _ (VStr hash)).
Qed.

(** ** Examples on the sample store *)





Lemma password_reaches_response_body_witness :
  exists row db',
    BeneficiaryController.createBeneficiary
      (Sample.request None (Some Sample.admin_principal) ∅
         {[ "username" := VStr "dana"; "password" := VStr "secret123";
            "type" := VStr "beneficiary"; "email" := VStr "dana@example.org" ]})
      Sample.db
    = (Ok (sendJson 201 (json_of_object row)), db') /\
    ("password", JStr "secret123") ∈ json_fields row /\
    body_has_key "password" (sendJson 201 (json_of_object row)) = true.
Proof.
  apply (proj1 password_reaches_response_body
           (Sample.request None (Some Sample.admin_principal) ∅
              {[ "username" := VStr "dana"; "password" := VStr "secret123";
                 "type" := VStr "beneficiary"; "email" := VStr "dana@example.org" ]})
           Sample.db Sample.admin_principal "secret123");
    vm_compute; reflexivity.
Defined.

(** ** Remarks *)

(** An admin-only operation on a resource refuses before it looks the
    resource up: for a principal that is not an admin the answer is 401
    whether or not the row exists. *)
Lemma admin_only_refuses_before_loading (req : Request) (db : Db)
    (p : gmap string value) :
  hasErrors req = false -> user req = Some p -> prop p "type" <> VStr "admin" ->
  BeneficiaryController.getBeneficiaryById req db
    = (Ok (send 401 "Unauthorized. Only admin users can view beneficiaries."), db).
Proof.
  intros He Hu Hp. unfold BeneficiaryController.getBeneficiaryById. rewrite He.
  by apply unlessAdmin_refused with (p := p).
Qed.

(** The registrations ask the hasher for 8 rounds: only its answer for the
    request's password at 8 rounds matters. *)
Lemma registration_hashes_with_8_rounds
    (hash1 hash2 : value -> Z -> result string) (req : Request) (db : Db) :
  hash1 (prop (reqBody req) "password") 8 = hash2 (prop (reqBody req) "password") 8 ->
  AuthController.adminRegister hash1 req db = AuthController.adminRegister hash2 req db
  /\ AuthController.ngoAdminRegister hash1 req db
     = AuthController.ngoAdminRegister hash2 req db
  /\ AuthControllerAlt.volunteerRegister hash1 req db
     = AuthControllerAlt.volunteerRegister hash2 req db.
Proof.
  intros H.
  unfold AuthController.adminRegister, AuthController.ngoAdminRegister,
    AuthControllerAlt.volunteerRegister, try_catch, bind, lift.
  rewrite H. repeat split; reflexivity.
Qed.

(** ** The report routes on the sample store *)

Example report_route_without_header :
  fst (ReportRoutes.byId Sample.jwt_verify Sample.SECRET ReportRoutes.GET
         (Sample.request None None {[ "id" := VNum 7 ]} ∅) Sample.db)
  = Ok (send 401 "Access denied. No token provided.").
Proof. vm_compute. reflexivity. Qed.

Example report_route_expired_token :
  fst (ReportRoutes.byId Sample.jwt_verify Sample.SECRET ReportRoutes.GET
         (Sample.request (Some "Bearer expired.token") None {[ "id" := VNum 7 ]} ∅)
         Sample.db)
  = Ok (send 400 "Invalid token.").
Proof. vm_compute. reflexivity. Qed.

Example report_route_raw_token :
  fst (ReportRoutes.byId Sample.jwt_verify Sample.SECRET ReportRoutes.GET
         (Sample.request (Some "bob.token") None {[ "id" := VNum 7 ]} ∅) Sample.db)
  = Ok (send 401 "Unauthorized. You do not have access to this report.").
Proof. vm_compute. reflexivity. Qed.

Example report_route_deleted_user :
  fst (ReportRoutes.byId Sample.jwt_verify Sample.SECRET ReportRoutes.GET
         (Sample.request (Some "Bearer ghost.token") None {[ "id" := VNum 7 ]} ∅)
         Sample.db)
  = Ok (send 404 "User not found.").
Proof. vm_compute. reflexivity. Qed.

Example report_route_volunteer :
  fst (ReportRoutes.byId Sample.jwt_verify Sample.SECRET ReportRoutes.GET
         (Sample.request (Some "Bearer bob.token") None {[ "id" := VNum 7 ]} ∅)
         Sample.db)
  = Ok (send 401 "Unauthorized. You do not have access to this report.").
Proof. vm_compute. reflexivity. Qed.

(** Alice's token says volunteer; she is stored as admin, and is served. *)
Example report_route_promoted_admin :
  status <$> (match fst (ReportRoutes.byId Sample.jwt_verify Sample.SECRET
                           ReportRoutes.GET
                           (Sample.request (Some "Bearer alice.old.token") None
                              {[ "id" := VNum 7 ]} ∅) Sample.db) with
              | Ok r => Some r
              | Throw _ => None
              end)
  = Some 200.
Proof. vm_compute. reflexivity. Qed.

Example report_route_missing_report :
  fst (ReportRoutes.byId Sample.jwt_verify Sample.SECRET ReportRoutes.DELETE
         (Sample.request (Some "Bearer bob.token") None {[ "id" := VNum 99 ]} ∅)
         Sample.db)
  = Ok (send 404 "Report not found.").
Proof. vm_compute. reflexivity. Qed.

(** The second version of the middleware refuses a raw token. *)
Example alt_refuses_raw_token :
  fst (AuthMiddlewareAlt.authMiddleware Sample.jwt_verify Sample.SECRET
         (Sample.request (Some "bob.token") None ∅ ∅) Sample.db)
  = Ok (Sent (sendJson 401 (JObj [("message", JStr "Invalid token format.")]))).
Proof. vm_compute. reflexivity. Qed.

(** A report created through the route carries a null [ngo_id]. *)
Example report_route_post :
  (fun row => prop row "ngo_id")
    <$> (rows Report
           (snd (ReportRoutes.post Sample.jwt_verify Sample.SECRET
                   (Sample.request (Some "Bearer alice.old.token") None ∅
                      {[ "beneficiary_id" := VNum 2; "aid_amount" := VNum 50;
                         "aid_date" := VStr "2024-02-02" ]})
                   Sample.db)) !! 8)
  = Some VNull.
Proof. vm_compute. reflexivity. Qed.

(** The ngo-admin registration route, asked by a volunteer. *)
Example register_ngo_admin_route_volunteer :
  AuthRoutes.registerNgoAdmin Sample.jwt_verify Sample.bcrypt_hashSync Sample.SECRET
    (Sample.request (Some "Bearer bob.token") None ∅
       {[ "username" := VStr "carol"; "password" := VStr "pw" ]}) Sample.db
  = (Ok (send 403 "Access denied. Only admin can create school admins."), Sample.db).
Proof. vm_compute. reflexivity. Qed.

(** * Further properties *)

(** ** Tables *)

Lemma rows_set_rows (m : Model) (t : gmap Z (gmap string value)) (db : Db) :
  rows m (set_rows m t db) = t.
Proof. unfold rows, set_rows. simpl. rewrite lookup_insert_eq. reflexivity. Qed.

Lemma rows_set_rows_other (m m' : Model) (t : gmap Z (gmap string value)) (db : Db) :
  m <> m' -> rows m' (set_rows m t db) = rows m' db.
Proof.
  intros H. unfold rows, set_rows. simpl. rewrite lookup_insert_ne by done.
  reflexivity.
Qed.

Lemma instance_key_id (row : gmap string value) (k : Z) :
  prop row "id" = VNum k -> instance_key row = Ok k.
Proof. intros H. unfold instance_key. rewrite H. reflexivity. Qed.

(** ** The Authorization header *)

Lemma split_without_separator (sep : ascii) (s : string) :
  contains sep s = false -> split sep s = [s].
Proof.
  induction s as [|c s IH]; simpl; [reflexivity |].
  intros H. apply orb_false_iff in H as [Hc Hs].
  rewrite Hc, (IH Hs). reflexivity.
Qed.

Lemma split_first_word (sep : ascii) (w rest : string) :
  contains sep w = false ->
  split sep (w ++ String sep rest) = w :: split sep rest.
Proof.
  induction w as [|c w IH]; simpl.
  - intros _. rewrite Ascii.eqb_refl. reflexivity.
  - intros H. apply orb_false_iff in H as [Hc Hw].
    rewrite Hc, (IH Hw). reflexivity.
Qed.

(** The second word of a header, whatever follows it. *)
Lemma second_word (w t : string) :
  contains " " w = false -> contains " " t = false ->
  at_index (split " " (w ++ " " ++ t)) 1 = VStr t
  /\ forall rest, at_index (split " " (w ++ " " ++ t ++ " " ++ rest)) 1 = VStr t.
Proof.
  intros Hw Ht. split.
  - change (w ++ " " ++ t) with (w ++ String " " t).
    rewrite (split_first_word _ _ _ Hw), (split_without_separator _ _ Ht).
    reflexivity.
  - intros rest.
    change (w ++ " " ++ t ++ " " ++ rest) with (w ++ String " " (t ++ String " " rest)).
    rewrite (split_first_word _ _ _ Hw), (split_first_word _ _ _ Ht).
    reflexivity.
Qed.

Lemma append_empty_r (s : string) : s ++ "" = s.
Proof.
  induction s as [|c s IH]; [reflexivity |].
  change (String c (s ++ "") = String c s). f_equal. exact IH.
Qed.

Lemma no_space_no_bearer_prefix (t : string) :
  contains " " t = false -> String.prefix "Bearer " t = false.
Proof.
  intros H.
  destruct t as [|c1 [|c2 [|c3 [|c4 [|c5 [|c6 [|c7 t]]]]]]]; simpl;
    repeat (match goal with
            | |- (if ?d then _ else _) = false => destruct d; [| reflexivity]
            end); try reflexivity.
  subst. simpl in H. discriminate H.
Qed.

Section HeaderFacts.
Variable jwt_verify : value -> value -> result (gmap string value).
Variable SECRET : value.

Let authMiddleware := AuthMiddleware.authMiddleware jwt_verify SECRET.
Let authMiddlewareAlt := AuthMiddlewareAlt.authMiddleware jwt_verify SECRET.


(** X1: in the first version of the middleware the ["Bearer "] prefix is
    optional: a token without a space is answered alike whether it is sent
    raw or after ["Bearer "]. *)
Theorem bearer_prefix_is_optional (req1 req2 : Request) (db : Db) (t : string) :
  contains " " t = false -> t <> "" ->
  header req1 "Authorization" = Some ("Bearer " ++ t) ->
  header req2 "Authorization" = Some t ->
  alike (authMiddleware req1 db) (authMiddleware req2 db).
Proof.
  intros Hsp Hne H1 H2.
  assert (Ht1 : AuthMiddleware.tokenWithoutBearer ("Bearer " ++ t) = VStr t).
  { unfold AuthMiddleware.tokenWithoutBearer.
    change (String.prefix "Bearer " ("Bearer " ++ t)) with (String.prefix "" t).
    replace (String.prefix "" t) with true by (destruct t; reflexivity).
    apply (second_word "Bearer" t); [reflexivity | exact Hsp]. }
  assert (Ht2 : AuthMiddleware.tokenWithoutBearer t = VStr t).
  { unfold AuthMiddleware.tokenWithoutBearer.
    rewrite (no_space_no_bearer_prefix t Hsp). reflexivity. }
  assert (Hne1 : "Bearer " ++ t <> "") by discriminate.
  destruct (jwt_verify (VStr t) SECRET) as [decoded|e] eqn:Hv.
  - unfold authMiddleware.
    rewrite (authMiddleware_verified jwt_verify SECRET req1 db _ decoded H1 Hne1)
      by (rewrite Ht1; exact Hv).
    rewrite (authMiddleware_verified jwt_verify SECRET req2 db _ decoded H2 Hne)
      by (rewrite Ht2; exact Hv).
    destruct (findByPk User (prop decoded "id") db) as [[[u|]|e] db']; reflexivity.
  - unfold authMiddleware.
    rewrite (authMiddleware_rejected_token jwt_verify SECRET req1 db _ e H1 Hne1)
      by (rewrite Ht1; exact Hv).
    rewrite (authMiddleware_rejected_token jwt_verify SECRET req2 db _ e H2 Hne)
      by (rewrite Ht2; exact Hv).
    reflexivity.
Qed.

(** What the second version does with a header of at least two words. *)
Lemma alt_two_words (req : Request) (db : Db) (w t : string) (tail : string) :
  contains " " w = false -> contains " " t = false -> t <> "" ->
  header req "Authorization" = Some (w ++ " " ++ t ++ tail) ->
  tail = "" \/ (exists rest, tail = " " ++ rest) ->
  authMiddlewareAlt req db =
    match jwt_verify (VStr t) SECRET with
    | Throw e =>
        (Ok (Sent (sendJson 400
           (JObj [("message", JStr "Invalid token."); ("error", JStr e)]))), db)
    | Ok decoded =>
        match findByPk User (prop decoded "id") db with
        | (Ok None, _) =>
            (Ok (Sent (sendJson 404 (JObj [("message", JStr "User not found.")]))), db)
        | (Ok (Some user), _) =>
            (Ok (Next (set_user req
               {[ "id" := prop decoded "id"; "type" := prop user "type" ]})), db)
        | (Throw e, _) =>
            (Ok (Sent (sendJson 400
               (JObj [("message", JStr "Invalid token."); ("error", JStr e)]))), db)
        end
    end.
Proof.
  intros Hw Ht Hne Hh Htail.
  assert (Hidx : at_index (split " " (w ++ " " ++ t ++ tail)) 1 = VStr t).
  { destruct Htail as [-> | [rest ->]].
    - rewrite append_empty_r. by apply second_word.
    - by apply second_word. }
  unfold authMiddlewareAlt, AuthMiddlewareAlt.authMiddleware. rewrite Hh.
  destruct (w ++ " " ++ t ++ tail) as [|c s] eqn:Hs.
  { destruct w; discriminate Hs. }
  rewrite Hidx.
  assert (Htr : negb (truthy (VStr t)) = false) by (destruct t; [done | reflexivity]).
  rewrite Htr.
  unfold try_catch, bind, lift, ret.
  destruct (jwt_verify (VStr t) SECRET) as [decoded|e]; [| reflexivity].
  pose proof (findByPk_reads_only User (prop decoded "id") db) as Hdb.
  destruct (findByPk User (prop decoded "id") db) as [[[u|]|e] db'];
    simpl in Hdb; subst; reflexivity.
Qed.

(** X2: the second version of the middleware refuses a token sent without a
    scheme word: a non-empty header without a space is answered 401
    "Invalid token format." and the verifier is never asked. *)
Theorem alt_refuses_token_without_scheme (req : Request) (db : Db) (token : string) :
  header req "Authorization" = Some token -> token <> "" ->
  contains " " token = false ->
  authMiddlewareAlt req db =
    (Ok (Sent (sendJson 401 (JObj [("message", JStr "Invalid token format.")]))), db).
Proof.
  intros Hh Hne Hsp.
  unfold authMiddlewareAlt, AuthMiddlewareAlt.authMiddleware. rewrite Hh.
  destruct token as [|c token]; [done |].
  rewrite (split_without_separator _ _ Hsp). reflexivity.
Qed.

(** X3: the second version of the middleware does not look at the scheme
    word: two headers that carry the same token after different first
    words, and whatever after a second space, are answered alike. *)
Theorem alt_ignores_scheme (req1 req2 : Request) (db : Db) (w1 w2 t rest : string) :
  contains " " w1 = false -> contains " " w2 = false ->
  contains " " t = false -> t <> "" ->
  header req1 "Authorization" = Some (w1 ++ " " ++ t) ->
  header req2 "Authorization" = Some (w2 ++ " " ++ t ++ " " ++ rest) ->
  alike (authMiddlewareAlt req1 db) (authMiddlewareAlt req2 db).
Proof.
  intros Hw1 Hw2 Ht Hne H1 H2.
  rewrite (alt_two_words req1 db w1 t "" Hw1 Ht Hne)
    by (rewrite ?append_empty_r; auto).
  rewrite (alt_two_words req2 db w2 t (" " ++ rest) Hw2 Ht Hne) by eauto.
  destruct (jwt_verify (VStr t) SECRET) as [decoded|e]; [| reflexivity].
  destruct (findByPk User (prop decoded "id") db) as [[[u|]|e] db']; reflexivity.
Qed.
End HeaderFacts.

Lemma bearer_prefix_is_optional_witness :
  alike
    (AuthMiddleware.authMiddleware Sample.jwt_verify Sample.SECRET
       (Sample.request (Some "Bearer bob.token") None ∅ ∅) Sample.db)
    (AuthMiddleware.authMiddleware Sample.jwt_verify Sample.SECRET
       (Sample.request (Some "bob.token") None ∅ ∅) Sample.db).
Proof.
  apply (bearer_prefix_is_optional Sample.jwt_verify Sample.SECRET _ _ Sample.db
           "bob.token");
    [reflexivity | discriminate | reflexivity | reflexivity].
Defined.

Lemma alt_refuses_token_without_scheme_witness :
  AuthMiddlewareAlt.authMiddleware Sample.jwt_verify Sample.SECRET
    (Sample.request (Some "alice.old.token") None ∅ ∅) Sample.db
  = (Ok (Sent (sendJson 401 (JObj [("message", JStr "Invalid token format.")]))),
     Sample.db).
Proof.
  apply (alt_refuses_token_without_scheme Sample.jwt_verify Sample.SECRET _ _
           "alice.old.token");
    [reflexivity | discriminate | reflexivity].
Defined.

Lemma alt_ignores_scheme_witness :
  alike
    (AuthMiddlewareAlt.authMiddleware Sample.jwt_verify Sample.SECRET
       (Sample.request (Some "Bearer bob.token") None ∅ ∅) Sample.db)
    (AuthMiddlewareAlt.authMiddleware Sample.jwt_verify Sample.SECRET
       (Sample.request (Some "Basic bob.token and more") None ∅ ∅) Sample.db).
Proof.
  apply (alt_ignores_scheme Sample.jwt_verify Sample.SECRET _ _ Sample.db
           "Bearer" "Basic" "bob.token" "and more");
    [reflexivity | reflexivity | reflexivity | discriminate
    | reflexivity | reflexivity].
Defined.

(** ** Accounts and tokens *)

Section AccountFacts.
Variable jwt_verify : value -> value -> result (gmap string value).
Variable SECRET : value.

Let authMiddleware := AuthMiddleware.authMiddleware jwt_verify SECRET.

(** X4: a deletion takes effect at once.  After [deleteUser], called by an
    admin, removed the user with key [k] (204), every request whose token
    verifies to the subject [k] is answered 404 "User not found." *)
Theorem deleted_user_is_rejected (req : Request) (db : Db)
    (p row : gmap string value) (k : Z) :
  hasErrors req = false ->
  user req = Some p -> prop p "type" = VStr "admin" ->
  readFault db = None -> writeFault db = None ->
  as_pk (prop (params req) "id") = Ok (Some k) ->
  rows User db !! k = Some row -> prop row "id" = VNum k ->
  exists db',
    UserController.deleteUser req db = (Ok (sendEmpty 204), db') /\
    rows User db' !! k = None /\
    forall req' token decoded,
      header req' "Authorization" = Some token -> token <> "" ->
      jwt_verify (AuthMiddleware.tokenWithoutBearer token) SECRET = Ok decoded ->
      as_pk (prop decoded "id") = Ok (Some k) ->
      authMiddleware req' db' = (Ok (Sent (send 404 "User not found.")), db').
Proof.
  intros He Hu Hp Hread Hwrite Hpk Hrow Hid.
  exists (set_rows User (delete k (rows User db)) db).
  split; [| split].
  - unfold UserController.deleteUser. rewrite He.
    rewrite (unlessAdmin_admin req p _ _ db Hu Hp).
    unfold try_catch, bind.
    rewrite (findByPk_found User _ k db Hread Hpk), Hrow.
    unfold destroy. rewrite (instance_key_id row k Hid), Hwrite. reflexivity.
  - rewrite rows_set_rows. apply lookup_delete_eq.
  - intros req' token decoded Hh Hne Hv Hk.
    unfold authMiddleware.
    rewrite (authMiddleware_verified jwt_verify SECRET req' _ token decoded Hh Hne Hv).
    rewrite (findByPk_found User _ k
               (set_rows User (delete k (rows User db)) db) Hread Hk).
    rewrite rows_set_rows, lookup_delete_eq. reflexivity.
Qed.

End AccountFacts.

Lemma deleted_user_is_rejected_witness :
  exists db',
    UserController.deleteUser
      (Sample.request None (Some Sample.admin_principal) {[ "id" := VNum 2 ]} ∅)
      Sample.db = (Ok (sendEmpty 204), db') /\
    rows User db' !! 2 = None /\
    forall req' token decoded,
      header req' "Authorization" = Some token -> token <> "" ->
      Sample.jwt_verify (AuthMiddleware.tokenWithoutBearer token) Sample.SECRET
        = Ok decoded ->
      as_pk (prop decoded "id") = Ok (Some 2) ->
      AuthMiddleware.authMiddleware Sample.jwt_verify Sample.SECRET req' db'
        = (Ok (Sent (send 404 "User not found.")), db').
Proof.
  apply (deleted_user_is_rejected Sample.jwt_verify Sample.SECRET
           (Sample.request None (Some Sample.admin_principal) {[ "id" := VNum 2 ]} ∅)
           Sample.db Sample.admin_principal Sample.bob 2);
    vm_compute; reflexivity.
Defined.


(** ** Order of the checks *)

Section OrderFacts.
Variable bcrypt_hashSync : value -> Z -> result string.
Variable select :
  gmap string value -> gmap Z (gmap string value) -> list (gmap string value) * Z.
Variable meta : gmap string value -> Z -> json.

(** X6: validation comes first.  On every operation whose handler starts
    with [validationResult(req)], and on [createReport], a request with
    validation errors is answered 400 with the errors and the store is left
    alone, whoever asks: an admin, another principal, or none. *)
Theorem validation_precedes_authorization (op : Protected.Operation)
    (req : Request) (db : Db) :
  hasErrors req = true ->
  (validated op = true ->
   Protected.run bcrypt_hashSync select meta op req db
     = (Ok (Sent (validationFailed req)), db))
  /\ ReportController.createReport req db = (Ok (validationFailed req), db).
Proof.
  intros He. split.
  - intros Hv.
    destruct op as [| [] | [] | [] | [] | [] | [] | [] | [] | |];
      try discriminate Hv; simpl Protected.run; unfold Protected.answer, bind;
      unfold ReportRoutes.handler,
        ReportController.getReportById, ReportController.updateReportById,
        ReportController.deleteReportById,
        ProjectController.getAllProjects, ProjectController.getProjectById,
        ProjectController.createProject, ProjectController.updateProjectById,
        ProjectController.deleteProjectById,
        EmployeeController.getAllEmployees, EmployeeController.getEmployeeById,
        EmployeeController.createEmployee, EmployeeController.updateEmployee,
        EmployeeController.deleteEmployee,
        BeneficiaryController.getAllBeneficiaries,
        BeneficiaryController.getBeneficiaryById,
        BeneficiaryController.createBeneficiary,
        BeneficiaryController.updateBeneficiary,
        BeneficiaryController.deleteBeneficiary,
        UserController.getAllUsers, UserController.getUserById,
        UserController.createUser, UserController.updateUser,
        UserController.deleteUser,
        AdminController.createAdmin, AdminController.updateAdmin;
      rewrite He; reflexivity.
  - unfold ReportController.createReport. rewrite He. reflexivity.
Qed.
End OrderFacts.

Lemma validation_precedes_authorization_witness :
  Protected.run Sample.bcrypt_hashSync (fun _ _ => ([], 0)) (fun _ _ => JNull)
    (Protected.Users Protected.Delete) Sample.invalid_request Sample.db
  = (Ok (Sent (validationFailed Sample.invalid_request)), Sample.db).
Proof.
  apply (proj1 (validation_precedes_authorization Sample.bcrypt_hashSync
                  (fun _ _ => ([], 0)) (fun _ _ => JNull)
                  (Protected.Users Protected.Delete)
                  Sample.invalid_request Sample.db eq_refl));
    reflexivity.
Defined.

(** ** Routes without a check *)

Section RouteFacts.
Variable jwt_verify : value -> value -> result (gmap string value).
Variable SECRET : value.
Variable selectAdmins :
  gmap string value -> gmap Z (gmap string value) -> list (gmap string value).
Variable select :
  gmap string value -> gmap Z (gmap string value) -> list (gmap string value) * Z.
Variable meta : gmap string value -> Z -> json.

(** X7: behind the admin router, reading a user needs a valid token and
    nothing else: whatever the type of the caller, [GET /admins/:id] is
    answered 200 with the whole stored row of the user the id names. *)
Theorem any_principal_reads_any_user (req : Request) (db : Db) (token : string)
    (decoded caller target : gmap string value) (kc k : Z) :
  header req "Authorization" = Some token -> token <> "" ->
  jwt_verify (AuthMiddleware.tokenWithoutBearer token) SECRET = Ok decoded ->
  readFault db = None ->
  as_pk (prop decoded "id") = Ok (Some kc) -> rows User db !! kc = Some caller ->
  as_pk (prop (params req) "id") = Ok (Some k) -> rows User db !! k = Some target ->
  AdminRoutes.route jwt_verify SECRET selectAdmins AdminRoutes.GetById req db
    = (Ok (sendJson 200 (json_of_object target)), db).
Proof.
  intros Hh Hne Hv Hread Hkc Hcaller Hk Htarget.
  unfold AdminRoutes.route, chain, bind.
  rewrite (authMiddleware_verified jwt_verify SECRET req db token decoded Hh Hne Hv).
  rewrite (findByPk_found User _ kc db Hread Hkc), Hcaller.
  simpl AdminRoutes.handler. unfold AdminController.getAdminById, try_catch, bind.
  simpl params. rewrite (findByPk_found User _ k db Hread Hk), Htarget.
  reflexivity.
Qed.

(** X8: the employee routes put no middleware before their handlers, so a
    request arrives without a principal: it is answered 400 when it fails
    validation, and otherwise the handler throws on [currentUser.type]
    before it answers or touches the store. *)
Theorem employee_routes_throw (r : EmployeeRoutes.Route) (req : Request) (db : Db) :
  user req = None ->
  EmployeeRoutes.route select meta r req db =
    if hasErrors req then (Ok (validationFailed req), db)
    else (Throw "Cannot read properties of undefined", db).
Proof.
  intros Hu.
  destruct r; simpl;
    unfold EmployeeController.getAllEmployees, EmployeeController.getEmployeeById,
      EmployeeController.createEmployee, EmployeeController.updateEmployee,
      EmployeeController.deleteEmployee;
    destruct (hasErrors req); try reflexivity;
    unfold unlessAdmin, bind, currentUser; rewrite Hu; reflexivity.
Qed.

(** X9: the volunteer routes put no middleware before their handlers
    either, and these handlers do not validate: every request that arrives
    without a principal makes the handler throw on [currentUser.type]. *)
Theorem volunteer_routes_throw (r : VolunteerRoutes.Route) (req : Request) (db : Db) :
  user req = None ->
  VolunteerRoutes.route r req db = (Throw "Cannot read properties of undefined", db).
Proof.
  intros Hu.
  destruct r; simpl;
    unfold VolunteerController.getAllVolunteers, VolunteerController.getVolunteerById,
      VolunteerController.createVolunteer, VolunteerController.deleteVolunteerById,
      VolunteerController.updateVolunteerById,
      VolunteerController.unlessPrivileged, bind, currentUser;
    rewrite Hu; reflexivity.
Qed.
End RouteFacts.

Lemma any_principal_reads_any_user_witness :
  AdminRoutes.route Sample.jwt_verify Sample.SECRET (fun _ _ => [])
    AdminRoutes.GetById
    (Sample.request (Some "Bearer bob.token") None {[ "id" := VNum 1 ]} ∅) Sample.db
  = (Ok (sendJson 200 (json_of_object Sample.alice)), Sample.db).
Proof.
  apply (any_principal_reads_any_user Sample.jwt_verify Sample.SECRET (fun _ _ => [])
           _ Sample.db "Bearer bob.token"
           {[ "id" := VNum 2; "type" := VStr "volunteer" ]} Sample.bob Sample.alice 2 1);
    vm_compute; (reflexivity || discriminate).
Defined.

Lemma employee_routes_throw_witness :
  EmployeeRoutes.route (fun _ _ => ([], 0)) (fun _ _ => JNull) EmployeeRoutes.GetById
    (Sample.request (Some "Bearer alice.old.token") None {[ "id" := VNum 1 ]} ∅)
    Sample.db
  = (Throw "Cannot read properties of undefined", Sample.db).
Proof.
  apply (employee_routes_throw (fun _ _ => ([], 0)) (fun _ _ => JNull)
           EmployeeRoutes.GetById
           (Sample.request (Some "Bearer alice.old.token") None {[ "id" := VNum 1 ]} ∅)
           Sample.db eq_refl).
Defined.

Lemma volunteer_routes_throw_witness :
  VolunteerRoutes.route VolunteerRoutes.GetAll
    (Sample.request (Some "Bearer alice.old.token") None ∅ ∅) Sample.db
  = (Throw "Cannot read properties of undefined", Sample.db).
Proof.
  apply (volunteer_routes_throw VolunteerRoutes.GetAll
           (Sample.request (Some "Bearer alice.old.token") None ∅ ∅)
           Sample.db eq_refl).
Defined.

(** ** Volunteers *)

(** Take apart the run [H] of a handler, one test after the other. *)
Ltac run_cases H :=
  repeat match type of H with
         | context [match ?x with _ => _ end] =>
             lazymatch x with
             | context [match _ with _ => _ end] => fail
             | _ => destruct x eqn:?
             end
         end.

(** X10: no volunteer handler but the deletion ever succeeds.  Listing,
    fetching, creating and updating end with 401, 400, 404 or 500, never
    with a 2xx status, because each of them reaches an expression that
    mentions [Task]; and listing, fetching and creating leave the store as
    it was. *)
Theorem volunteer_handlers_never_succeed (r : VolunteerRoutes.Route)
    (req : Request) (db db' : Db) (res : Response) :
  r <> VolunteerRoutes.Delete ->
  VolunteerRoutes.route r req db = (Ok res, db') ->
  (status res = 400 \/ status res = 401 \/ status res = 404 \/ status res = 500)
  /\ (r <> VolunteerRoutes.Put -> db' = db).
Proof.
  intros Hr H.
  destruct r; try done; simpl in H;
    unfold VolunteerController.getAllVolunteers, VolunteerController.getVolunteerById,
      VolunteerController.createVolunteer, VolunteerController.updateVolunteerById,
      VolunteerController.unlessPrivileged, VolunteerController.lowerCaseOrder,
      VolunteerController.Task, bind, try_catch, currentUser, throw, ret in H;
    (destruct (user req) as [p|]; [| discriminate H]).
  - run_cases H; inversion H; subst; simpl; split; auto.
  - run_cases H; inversion H; subst; simpl; split; auto.
  - pose proof (findByPk_reads_only User (prop (reqBody req) "user_id") db) as Hdb.
    run_cases H; simpl in Hdb; inversion H; subst; simpl; split; auto.
  - unfold update in H.
    run_cases H; inversion H; subst; simpl; split; auto; done.
Qed.

(** X11: [updateVolunteerById] writes before it fails.  For a principal that
    passes both checks, a body with both ids and a volunteer that exists,
    the row is saved with the new [user_id] and [task_id], and the answer is
    nevertheless 500 "Task is not defined". *)
Theorem volunteer_update_is_saved_then_fails (req : Request) (db : Db)
    (p volunteer : gmap string value) (k : Z) :
  user req = Some p -> VolunteerController.lacksPrivileges p = false ->
  truthy (prop (reqBody req) "user_id") = true ->
  truthy (prop (reqBody req) "task_id") = true ->
  readFault db = None -> writeFault db = None ->
  as_pk (prop (params req) "id") = Ok (Some k) ->
  rows VolunteerController.Volunteer db !! k = Some volunteer ->
  prop volunteer "id" = VNum k ->
  VolunteerController.otherTask p volunteer = false ->
  exists db' row,
    VolunteerController.updateVolunteerById req db
      = (Ok (internalError "Task is not defined"), db') /\
    rows VolunteerController.Volunteer db' !! k = Some row /\
    prop row "user_id" = prop (reqBody req) "user_id" /\
    prop row "task_id" = prop (reqBody req) "task_id".
Proof.
  intros Hu Hp Huid Htid Hread Hwrite Hpk Hrow Hid Hother.
  eexists _, _. split; [| split; [| split]].
  - unfold VolunteerController.updateVolunteerById,
      VolunteerController.unlessPrivileged, bind.
    rewrite (currentUser_some req p db Hu), Hp, Huid, Htid.
    change (negb true || negb true) with false. cbv iota.
    unfold try_catch.
    rewrite (findByPk_found _ _ k db Hread Hpk), Hrow, Hother.
    unfold update. rewrite (instance_key_id volunteer k Hid), Hwrite.
    reflexivity.
  - rewrite rows_set_rows. apply lookup_insert_eq.
  - unfold prop at 1. rewrite lookup_fmap.
    rewrite (lookup_union_Some_l _ volunteer "user_id" (prop (reqBody req) "user_id"))
      by (apply lookup_insert_eq).
    simpl. destruct (prop (reqBody req) "user_id"); try reflexivity; discriminate.
  - unfold prop at 1. rewrite lookup_fmap.
    rewrite (lookup_union_Some_l _ volunteer "task_id" (prop (reqBody req) "task_id"))
      by (rewrite lookup_insert_ne by done; apply lookup_singleton_eq).
    simpl. destruct (prop (reqBody req) "task_id"); try reflexivity; discriminate.
Qed.

Section VolunteerGate.
Variable jwt_verify : value -> value -> result (gmap string value).
Variable SECRET : value.

(** X12: of the principals the middleware attaches, the volunteer handlers
    admit admins and employees only.  The principal has no
    [isAssignedToVolunteerTask], so a coordinator is refused like every
    other type: 401 on each of the five handlers, the store not touched. *)
Theorem middleware_coordinator_is_refused (r : VolunteerRoutes.Route)
    (req req' : Request) (db db' db2 : Db) (p : gmap string value) :
  AuthMiddleware.authMiddleware jwt_verify SECRET req db = (Ok (Next req'), db') ->
  user req' = Some p ->
  prop p "type" <> VStr "admin" -> prop p "type" <> VStr "employee" ->
  VolunteerRoutes.route r req' db2
    = (Ok (send 401 "Unauthorized. User lacks the required privileges."), db2).
Proof.
  intros H Hu Hadmin Hemp.
  apply authMiddleware_next_inv in H as (token & decoded & k & row & _ & _ & _ & _ & -> & _).
  simpl in Hu. inversion Hu; subst p. clear Hu.
  set (p := ({[ "id" := prop decoded "id"; "type" := prop row "type" ]}
             : gmap string value)) in *.
  assert (Hlack : VolunteerController.lacksPrivileges p = true).
  { unfold VolunteerController.lacksPrivileges.
    assert (Hflag : prop p "isAssignedToVolunteerTask" = VUndefined).
    { unfold prop, p. rewrite lookup_insert_ne by done.
      rewrite lookup_singleton_ne by done. reflexivity. }
    rewrite Hflag. simpl truthy. simpl negb. rewrite andb_true_r.
    simpl existsb. unfold strict_eq.
    rewrite (bool_decide_eq_false_2 _ Hadmin), (bool_decide_eq_false_2 _ Hemp).
    simpl. destruct (bool_decide _); reflexivity. }
  destruct r; simpl;
    unfold VolunteerController.getAllVolunteers, VolunteerController.getVolunteerById,
      VolunteerController.createVolunteer, VolunteerController.deleteVolunteerById,
      VolunteerController.updateVolunteerById,
      VolunteerController.unlessPrivileged, bind;
    rewrite (currentUser_some (set_user req p) p db2 eq_refl), Hlack; reflexivity.
Qed.
End VolunteerGate.

Lemma volunteer_handlers_never_succeed_witness :
  (status (internalError "Task is not defined") = 400
   \/ status (internalError "Task is not defined") = 401
   \/ status (internalError "Task is not defined") = 404
   \/ status (internalError "Task is not defined") = 500)
  /\ (VolunteerRoutes.GetById <> VolunteerRoutes.Put -> Sample.db = Sample.db).
Proof.
  apply (volunteer_handlers_never_succeed VolunteerRoutes.GetById
           (Sample.request None (Some Sample.admin_principal) {[ "id" := VNum 4 ]} ∅)
           Sample.db Sample.db (internalError "Task is not defined"));
    [discriminate | vm_compute; reflexivity].
Defined.

Lemma volunteer_update_is_saved_then_fails_witness :
  exists db' row,
    VolunteerController.updateVolunteerById
      (Sample.request None (Some Sample.admin_principal) {[ "id" := VNum 4 ]}
         {[ "user_id" := VNum 1; "task_id" := VNum 6 ]})
      Sample.db_with_volunteer
      = (Ok (internalError "Task is not defined"), db') /\
    rows VolunteerController.Volunteer db' !! 4 = Some row /\
    prop row "user_id"
      = prop (reqBody (Sample.request None (Some Sample.admin_principal)
                         {[ "id" := VNum 4 ]}
                         {[ "user_id" := VNum 1; "task_id" := VNum 6 ]})) "user_id" /\
    prop row "task_id"
      = prop (reqBody (Sample.request None (Some Sample.admin_principal)
                         {[ "id" := VNum 4 ]}
                         {[ "user_id" := VNum 1; "task_id" := VNum 6 ]})) "task_id".
Proof.
  apply (volunteer_update_is_saved_then_fails
           (Sample.request None (Some Sample.admin_principal) {[ "id" := VNum 4 ]}
              {[ "user_id" := VNum 1; "task_id" := VNum 6 ]})
           Sample.db_with_volunteer Sample.admin_principal Sample.volunteer4 4);
    vm_compute; reflexivity.
Defined.

Lemma middleware_coordinator_is_refused_witness :
  VolunteerRoutes.route VolunteerRoutes.GetAll
    (set_user (Sample.request (Some "Bearer bob.token") None ∅ ∅)
       Sample.volunteer_principal) Sample.db_with_volunteer
  = (Ok (send 401 "Unauthorized. User lacks the required privileges."),
     Sample.db_with_volunteer).
Proof.
  apply (middleware_coordinator_is_refused Sample.jwt_verify Sample.SECRET
           VolunteerRoutes.GetAll
           (Sample.request (Some "Bearer bob.token") None ∅ ∅) _
           Sample.db Sample.db Sample.db_with_volunteer Sample.volunteer_principal);
    vm_compute; (reflexivity || discriminate).
Defined.

(** ** The event router *)

Section EventRouterFacts.
Variable jwt_verify : value -> value -> result (gmap string value).
Variable SECRET : value.
Variable select :
  gmap string value -> gmap Z (gmap string value) -> list (gmap string value) * Z.
Variable meta : gmap string value -> Z -> json.

(** After the admin check, an event handler ends with another status than
    401. *)
Lemma event_handler_of_admin (r : EventRouter.Route) (req : Request) (db db' : Db)
    (p : gmap string value) (res : Response) :
  user req = Some p -> prop p "type" = VStr "admin" ->
  EventRouter.handler select meta r req db = (Ok res, db') -> status res <> 401.
Proof.
  intros Hu Hp H.
  destruct r; simpl in H;
    unfold EventController.getAllEvents, EventController.getEventById,
      EventController.createEvent, EventController.updateEvent,
      EventController.deleteEvent in H;
    rewrite (unlessAdmin_admin req p _ _ db Hu Hp) in H;
    unfold try_catch, bind, ret, findAll, create, update, destroy in H;
    run_cases H; inversion H; subst; simpl; discriminate.
Qed.

(** X13: on the event routes the two middlewares decide alone.  A 401 is
    either the authentication middleware's "no token" answer or the admin
    gate's; the check the event handlers repeat never refuses anyone, and a
    request refused with 401 leaves the store as it was. *)
Theorem event_router_refusals (r : EventRouter.Route) (req : Request)
    (db db' : Db) (res : Response) :
  EventRouter.route jwt_verify SECRET select meta r req db = (Ok res, db') ->
  status res = 401 ->
  (res = send 401 "Access denied. No token provided."
   \/ res = send 401 "Unauthorized. Only admin users can access this resource.")
  /\ db' = db.
Proof.
  intros H Hs. unfold EventRouter.route, chain, bind in H.
  destruct (authMiddleware_outcomes jwt_verify SECRET req db)
    as [Ha | [Ha | [Ha | [p Ha]]]]; rewrite Ha in H.
  - inversion H; subst. auto.
  - other_status H Hs.
  - other_status H Hs.
  - unfold EventRoutes.adminMiddleware, bind in H.
    rewrite (currentUser_some (set_user req p) p db eq_refl) in H.
    unfold strict_eq in H.
    destruct (decide (prop p "type" = VStr "admin")) as [Hp | Hp].
    + rewrite (bool_decide_eq_true_2 _ Hp) in H. unfold ret at 1 in H.
      destruct (event_handler_of_admin r (set_user req p) db db' p res
                  eq_refl Hp H Hs).
    + rewrite (bool_decide_eq_false_2 _ Hp) in H. inversion H; subst. auto.
Qed.
End EventRouterFacts.

Lemma event_router_refusals_witness :
  (send 401 "Unauthorized. Only admin users can access this resource."
     = send 401 "Access denied. No token provided."
   \/ send 401 "Unauthorized. Only admin users can access this resource."
      = send 401 "Unauthorized. Only admin users can access this resource.")
  /\ Sample.db = Sample.db.
Proof.
  apply (event_router_refusals Sample.jwt_verify Sample.SECRET
           (fun _ _ => ([], 0)) (fun _ _ => JNull) EventRouter.Delete
           (Sample.request (Some "Bearer bob.token") None {[ "id" := VNum 1 ]} ∅)
           Sample.db Sample.db);
    vm_compute; reflexivity.
Defined.

(** ** Reports: what is written *)






(** ** Rows that are deleted, rows that cannot be read *)

Section ResourceFacts.
Variable bcrypt_hashSync : value -> Z -> result string.
Variable select :
  gmap string value -> gmap Z (gmap string value) -> list (gmap string value) * Z.
Variable meta : gmap string value -> Z -> json.

Let run := Protected.run bcrypt_hashSync select meta.



End ResourceFacts.


(** ** Registration and login *)



Lemma create_outcome (m : Model) (data : gmap string value) (db : Db) :
  (exists row db', create m data db = (Ok row, db'))
  \/ (exists e, create m data db = (Throw e, db)).
Proof.
  unfold create. destruct (writeFault db); [right; eauto |].
  destruct (as_pk (prop data "id")) as [[k|]|]; [| left; eauto | right; eauto].
  destruct (rows m db !! k); [right; eauto | left; eauto].
Qed.

Lemma findOne_outcome (m : Model) (k : string) (v : value) (db : Db) :
  (exists o, findOne m k v db = (Ok o, db)) \/ (exists e, findOne m k v db = (Throw e, db)).
Proof.
  unfold findOne. destruct v; try (right; eauto; fail);
    (destruct (readFault db); [right; eauto | left; eauto]).
Qed.

Section RegistrationFacts.
Variable bcrypt_hashSync : value -> Z -> result string.
Variable bcrypt_compareSync : value -> value -> result bool.
Variable jwt_segments :
  gmap string value -> value -> Z -> result (string * string * string).
Variable SECRET : value.


(** X18: the auth controller keeps its errors to itself.  Each of the six
    handlers of the two versions answers every request: nothing is thrown to
    the framework, and a 500 carries the fixed text and leaves the store as
    it was. *)
Theorem auth_controller_errors_are_generic (h : Request -> M Response)
    (req : Request) (db : Db) :
  In h [ AuthController.adminRegister bcrypt_hashSync;
         AuthController.ngoAdminRegister bcrypt_hashSync;
         AuthController.login bcrypt_compareSync jwt_segments SECRET;
         AuthControllerAlt.adminRegister bcrypt_hashSync;
         AuthControllerAlt.volunteerRegister bcrypt_hashSync;
         AuthControllerAlt.login bcrypt_compareSync jwt_segments SECRET ] ->
  exists r db',
    h req db = (Ok r, db') /\
    (status r = 500 -> r = send 500 "Error on the server." /\ db' = db).
Proof.
  assert (Hdone : forall (r : Response) (db' : Db),
            (status r = 500 -> r = send 500 "Error on the server." /\ db' = db) ->
            exists r0 db0, (Ok r, db') = (Ok r0, db0) /\
              (status r0 = 500 -> r0 = send 500 "Error on the server." /\ db0 = db)).
  { intros r db' H. exists r, db'. auto. }
  intros Hin. simpl in Hin.
  destruct Hin as [<- | [<- | [<- | [<- | [<- | [<- | []]]]]]];
    unfold AuthController.adminRegister, AuthController.ngoAdminRegister,
      AuthController.login, AuthControllerAlt.adminRegister,
      AuthControllerAlt.volunteerRegister, AuthControllerAlt.login,
      AuthController.jwt_sign, AuthControllerAlt.jwt_sign,
      try_catch, bind, lift, ret.
  1, 4:
    destruct (bcrypt_hashSync _ _); [| apply Hdone; auto];
    match goal with |- context [create ?m ?d ?s] =>
      destruct (create_outcome m d s) as [(row & db' & ->) | (e & ->)] end;
    apply Hdone; (discriminate || auto).
  1, 3:
    destruct (bcrypt_hashSync _ _); [| apply Hdone; auto];
    destruct (match user req with Some u => _ | None => false end);
    [| apply Hdone; discriminate];
    match goal with |- context [create ?m ?d ?s] =>
      destruct (create_outcome m d s) as [(row & db' & ->) | (e & ->)] end;
    apply Hdone; (discriminate || auto).
  all:
    match goal with |- context [findOne ?m ?k ?v ?s] =>
      destruct (findOne_outcome m k v s) as [(o & ->) | (e & ->)] end;
    [| apply Hdone; auto];
    destruct o as [u|]; [| apply Hdone; discriminate];
    destruct (bcrypt_compareSync _ _) as [[|]|]; simpl negb; cbv iota;
    [| apply Hdone; discriminate | apply Hdone; auto];
    destruct (jwt_segments _ _ _); simpl result_map; cbv iota;
    apply Hdone; (discriminate || auto).
Qed.
End RegistrationFacts.


Lemma auth_controller_errors_are_generic_witness :
  exists r db',
    AuthController.login Sample.bcrypt_compareSync Sample.jwt_segments Sample.SECRET
      (Sample.request None None ∅
         {[ "username" := VStr "alice"; "password" := VStr "secret123" ]})
      Sample.db_down = (Ok r, db') /\
    (status r = 500 -> r = send 500 "Error on the server." /\ db' = Sample.db_down).
Proof.
  apply (auth_controller_errors_are_generic Sample.bcrypt_hashSync
           Sample.bcrypt_compareSync Sample.jwt_segments Sample.SECRET
           (AuthController.login Sample.bcrypt_compareSync Sample.jwt_segments
              Sample.SECRET)).
  simpl. auto.
Defined.

(** ** Errors of the store, seen from the resource controllers *)

Section StoreErrorFacts.
Variable bcrypt_hashSync : value -> Z -> result string.
Variable select :
  gmap string value -> gmap Z (gmap string value) -> list (gmap string value) * Z.
Variable meta : gmap string value -> Z -> json.

(** X19: the resource controllers hand the store's error message to the
    client.  On each of the seven resources, fetching a row by id while the
    store fails answers 500 with the message of the failure in [details]. *)
Theorem store_error_reaches_client (r : Resource.t) (req : Request) (db : Db)
    (p : gmap string value) (e : string) :
  hasErrors req = false ->
  user req = Some p -> prop p "type" = VStr "admin" ->
  readFault db = Some e ->
  prop (params req) "id" <> VUndefined -> prop (params req) "id" <> VNull ->
  Protected.run bcrypt_hashSync select meta (Resource.getById r) req db
    = (Ok (Sent (internalError e)), db).
Proof.
  intros He Hu Hp Hread Hundef Hnull.
  destruct r; simpl Resource.getById; simpl Protected.run;
    unfold Protected.answer, bind; simpl ReportRoutes.handler;
    unfold ReportController.getReportById, ReportController.findByPk_with_beneficiary,
      EventController.getEventById, DonorController.getDonorById,
      ProjectController.getProjectById, EmployeeController.getEmployeeById,
      BeneficiaryController.getBeneficiaryById, UserController.getUserById;
    rewrite ?He; rewrite ?(unlessAdmin_admin req p _ _ _ Hu Hp);
    unfold try_catch, bind;
    rewrite (findByPk_fault _ _ e db Hread Hundef Hnull); reflexivity.
Qed.
End StoreErrorFacts.

Lemma store_error_reaches_client_witness :
  Protected.run Sample.bcrypt_hashSync (fun _ _ => ([], 0)) (fun _ _ => JNull)
    (Resource.getById Resource.Users)
    (Sample.request None (Some Sample.admin_principal) {[ "id" := VNum 2 ]} ∅)
    Sample.db_down
  = (Ok (Sent (internalError "connect ECONNREFUSED")), Sample.db_down).
Proof.
  apply (store_error_reaches_client Sample.bcrypt_hashSync (fun _ _ => ([], 0))
           (fun _ _ => JNull) Resource.Users
           (Sample.request None (Some Sample.admin_principal) {[ "id" := VNum 2 ]} ∅)
           Sample.db_down Sample.admin_principal "connect ECONNREFUSED");
    vm_compute; (reflexivity || discriminate).
Defined.

(** ** Users: the row that was created *)



(** ** Reports: the list *)

Section ReportListFacts.
Variable select :
  gmap string value -> option value -> gmap Z (gmap string value)
  -> list (gmap string value) * Z.
Variable meta : gmap string value -> Z -> json.

End ReportListFacts.


(** ** Volunteer attendance *)




(** ** The other version of the middleware *)

Section AltOutcomes.
Variable jwt_verify : value -> value -> result (gmap string value).
Variable SECRET : value.

(** X23: the second version of the middleware answers every request itself
    or passes it on: it throws nothing, writes nothing, refuses with 401,
    400 or 404 only, and the principal it attaches has the two properties
    [id] and [type] and no other. *)
Theorem alt_middleware_outcomes (req : Request) (db : Db) :
  exists step,
    AuthMiddlewareAlt.authMiddleware jwt_verify SECRET req db = (Ok step, db) /\
    match step with
    | Sent r => status r = 401 \/ status r = 400 \/ status r = 404
    | Next req' =>
        exists p, req' = set_user req p /\ dom p = ({[ "id"; "type" ]} : gset string)
    end.
Proof.
  unfold AuthMiddlewareAlt.authMiddleware.
  destruct (header req "Authorization") as [[|c token]|];
    [eexists; split; [reflexivity | simpl; auto] | | eexists; split; [reflexivity | simpl; auto]].
  destruct (negb (truthy (at_index (split " " (String c token)) 1)));
    [eexists; split; [reflexivity | simpl; auto] |].
  unfold try_catch, bind, lift.
  destruct (jwt_verify _ SECRET) as [decoded|e];
    [| eexists; split; [reflexivity | simpl; auto]].
  pose proof (findByPk_reads_only User (prop decoded "id") db) as Hro.
  destruct (findByPk User (prop decoded "id") db) as [[[u|]|e] db1];
    simpl in Hro; subst db1;
    (eexists; split; [reflexivity |]); [| simpl; auto | simpl; auto].
  eexists. split; [reflexivity |].
  rewrite dom_insert_L, dom_singleton_L. reflexivity.
Qed.
End AltOutcomes.

(** ** The admin controller *)

(** X24: [deleteAdmin] deletes whatever user the id names.  Called by an
    admin, it removes the row and answers 204 without looking at the type
    of the account it removes. *)
Theorem deleteAdmin_deletes_any_user (req : Request) (db : Db)
    (p target : gmap string value) (k : Z) :
  user req = Some p -> prop p "type" = VStr "admin" ->
  readFault db = None -> writeFault db = None ->
  as_pk (prop (params req) "id") = Ok (Some k) ->
  rows User db !! k = Some target -> prop target "id" = VNum k ->
  AdminController.deleteAdmin req db
    = (Ok (sendEmpty 204), set_rows User (delete k (rows User db)) db).
Proof.
  intros Hu Hp Hread Hwrite Hpk Hrow Hid.
  unfold AdminController.deleteAdmin.
  rewrite (unlessAdmin_admin req p _ _ _ Hu Hp).
  unfold try_catch, bind.
  rewrite (findByPk_found User _ k db Hread Hpk), Hrow.
  unfold destroy. rewrite (instance_key_id target k Hid), Hwrite. reflexivity.
Qed.

Lemma deleteAdmin_deletes_any_user_witness :
  AdminController.deleteAdmin
    (Sample.request None (Some Sample.admin_principal) {[ "id" := VNum 2 ]} ∅) Sample.db
  = (Ok (sendEmpty 204), set_rows User (delete 2 (rows User Sample.db)) Sample.db).
Proof.
  apply (deleteAdmin_deletes_any_user
           (Sample.request None (Some Sample.admin_principal) {[ "id" := VNum 2 ]} ∅)
           Sample.db Sample.admin_principal Sample.bob 2);
    vm_compute; reflexivity.
Defined.

(** ** One table per operation *)

Lemma same_elsewhere_refl (m : Model) (db : Db) : same_elsewhere m db db.
Proof. repeat split. Qed.

Lemma same_elsewhere_trans (m : Model) (db1 db2 db3 : Db) :
  same_elsewhere m db1 db2 -> same_elsewhere m db2 db3 -> same_elsewhere m db1 db3.
Proof.
  intros (Hr & Hw & Ht) (Hr' & Hw' & Ht'). split_and!; [congruence | congruence |].
  intros m' Hm. rewrite (Ht' m' Hm). apply (Ht m' Hm).
Qed.

Lemma same_elsewhere_set_rows (m : Model) (t : gmap Z (gmap string value)) (db : Db) :
  same_elsewhere m db (set_rows m t db).
Proof.
  split_and!; [reflexivity | reflexivity |].
  intros m' Hm. apply rows_set_rows_other. congruence.
Qed.

Lemma keeps_ret {A} (m : Model) (a : A) : keeps m (ret a).
Proof. intros db out db' H. inversion H. apply same_elsewhere_refl. Qed.

Lemma keeps_throw {A} (m : Model) (e : string) : keeps m (throw e : M A).
Proof. intros db out db' H. inversion H. apply same_elsewhere_refl. Qed.

Lemma keeps_lift {A} (m : Model) (r : result A) : keeps m (lift r).
Proof. intros db out db' H. inversion H. apply same_elsewhere_refl. Qed.

Lemma keeps_bind {A B} (m : Model) (c : M A) (k : A -> M B) :
  keeps m c -> (forall a, keeps m (k a)) -> keeps m (bind c k).
Proof.
  intros Hc Hk db out db' H. unfold bind in H.
  destruct (c db) as [[a|e] db1] eqn:Hrun.
  - apply (same_elsewhere_trans m db db1 db'); [apply (Hc _ _ _ Hrun) |].
    apply (Hk a _ _ _ H).
  - inversion H; subst. apply (Hc _ _ _ Hrun).
Qed.

Lemma keeps_try_catch {A} (m : Model) (c : M A) (h : string -> M A) :
  keeps m c -> (forall e, keeps m (h e)) -> keeps m (try_catch c h).
Proof.
  intros Hc Hh db out db' H. unfold try_catch in H.
  destruct (c db) as [[a|e] db1] eqn:Hrun.
  - inversion H; subst. apply (Hc _ _ _ Hrun).
  - apply (same_elsewhere_trans m db db1 db'); [apply (Hc _ _ _ Hrun) |].
    apply (Hh e _ _ _ H).
Qed.

Lemma keeps_findByPk (m m' : Model) (id : value) : keeps m (findByPk m' id).
Proof.
  intros db out db' H.
  pose proof (findByPk_reads_only m' id db) as Hro. rewrite H in Hro. simpl in Hro.
  subst. apply same_elsewhere_refl.
Qed.

Lemma keeps_findOne (m m' : Model) (k : string) (v : value) : keeps m (findOne m' k v).
Proof.
  intros db out db' H. unfold findOne in H.
  destruct v; try (inversion H; apply same_elsewhere_refl);
    (destruct (readFault db); inversion H; apply same_elsewhere_refl).
Qed.

Lemma keeps_findAll {A} (m m' : Model) (select : gmap Z (gmap string value) -> A) :
  keeps m (findAll m' select).
Proof.
  intros db out db' H. unfold findAll in H.
  destruct (readFault db); inversion H; apply same_elsewhere_refl.
Qed.

Lemma keeps_currentUser (m : Model) (req : Request) : keeps m (currentUser req).
Proof.
  intros db out db' H. unfold currentUser in H.
  destruct (user req); inversion H; apply same_elsewhere_refl.
Qed.

Lemma keeps_create (m : Model) (data : gmap string value) : keeps m (create m data).
Proof.
  intros db out db' H. unfold create in H.
  destruct (writeFault db); [inversion H; apply same_elsewhere_refl |].
  destruct (as_pk (prop data "id")) as [[k|]|];
    [destruct (rows m db !! k) | |];
    inversion H; first [apply same_elsewhere_refl | apply same_elsewhere_set_rows].
Qed.

Lemma keeps_update (m : Model) (instance data : gmap string value) :
  keeps m (update m instance data).
Proof.
  intros db out db' H. unfold update in H.
  destruct (instance_key instance); [destruct (writeFault db) |];
    inversion H; first [apply same_elsewhere_refl | apply same_elsewhere_set_rows].
Qed.

Lemma keeps_destroy (m : Model) (instance : gmap string value) :
  keeps m (destroy m instance).
Proof.
  intros db out db' H. unfold destroy in H.
  destruct (instance_key instance); [destruct (writeFault db) |];
    inversion H; first [apply same_elsewhere_refl | apply same_elsewhere_set_rows].
Qed.

Lemma keeps_updateWhereId (m : Model) (id : value) (data : gmap string value) :
  keeps m (updateWhereId m id data).
Proof.
  intros db out db' H. unfold updateWhereId in H.
  destruct id; try (inversion H; apply same_elsewhere_refl);
    (destruct (writeFault db); [inversion H; apply same_elsewhere_refl |]);
    (match type of H with context [as_pk ?v] => destruct (as_pk v) as [[k|]|] end);
    try (inversion H; apply same_elsewhere_refl);
    (destruct (rows m db !! k); inversion H;
     first [apply same_elsewhere_refl | apply same_elsewhere_set_rows]).
Qed.

Lemma keeps_destroyWhereId (m : Model) (id : value) : keeps m (destroyWhereId m id).
Proof.
  intros db out db' H. unfold destroyWhereId in H.
  destruct id; try (inversion H; apply same_elsewhere_refl);
    (destruct (writeFault db); [inversion H; apply same_elsewhere_refl |]);
    (match type of H with context [as_pk ?v] => destruct (as_pk v) as [[k|]|] end);
    try (inversion H; apply same_elsewhere_refl);
    (destruct (rows m db !! k); inversion H;
     first [apply same_elsewhere_refl | apply same_elsewhere_set_rows]).
Qed.

Lemma keeps_findByPk_with_beneficiary (m : Model) (id : value) :
  keeps m (ReportController.findByPk_with_beneficiary id).
Proof.
  intros db out db' H. unfold ReportController.findByPk_with_beneficiary in H.
  pose proof (findByPk_reads_only Report id db) as Hro.
  destruct (findByPk Report id db) as [[[report|]|e] db1]; simpl in Hro; subst db1;
    inversion H; apply same_elsewhere_refl.
Qed.

Create HintDb keeps discriminated.

#[local] Hint Resolve keeps_ret keeps_throw keeps_lift keeps_findByPk keeps_findOne
  keeps_findAll keeps_currentUser keeps_create keeps_update keeps_destroy
  keeps_updateWhereId keeps_destroyWhereId keeps_findByPk_with_beneficiary : keeps.

Ltac keeps_step :=
  lazymatch goal with
  | |- keeps _ (bind _ _) => apply keeps_bind; [| intros ?]
  | |- keeps _ (try_catch _ _) => apply keeps_try_catch; [| intros ?]
  | |- keeps _ (if ?b then _ else _) => destruct b
  | |- keeps _ (match ?x with _ => _ end) => destruct x
  | |- keeps _ _ => solve [auto with keeps]
  end.

Section FrameFacts.
Variable bcrypt_hashSync : value -> Z -> result string.
Variable select :
  gmap string value -> gmap Z (gmap string value) -> list (gmap string value) * Z.
Variable meta : gmap string value -> Z -> json.

(** X25: an operation writes one table.  However a protected operation
    ends, answering, passing on or throwing, every table but its own is as
    it was before, and so are the faults of the store. *)
Theorem operation_writes_one_table (op : Protected.Operation) (req : Request)
    (db db' : Db) (out : result Step) :
  Protected.run bcrypt_hashSync select meta op req db = (out, db') ->
  same_elsewhere (written op) db db'.
Proof.
  revert db out db'. change (keeps (written op)
    (Protected.run bcrypt_hashSync select meta op req)).
  destruct op as [| verb | h | h | h | h | h | h | h | |];
    try destruct verb; try destruct h;
    simpl written; simpl Protected.run;
    unfold Protected.answer, EventRoutes.adminMiddleware; simpl ReportRoutes.handler;
    unfold ReportController.getReportById, ReportController.updateReportById,
      ReportController.deleteReportById,
      EventController.getAllEvents, EventController.getEventById,
      EventController.createEvent, EventController.updateEvent,
      EventController.deleteEvent,
      DonorController.getAllDonors, DonorController.getDonorById,
      DonorController.createDonor, DonorController.updateDonor,
      DonorController.deleteDonor,
      ProjectController.getAllProjects, ProjectController.getProjectById,
      ProjectController.createProject, ProjectController.updateProjectById,
      ProjectController.deleteProjectById,
      EmployeeController.getAllEmployees, EmployeeController.getEmployeeById,
      EmployeeController.createEmployee, EmployeeController.updateEmployee,
      EmployeeController.deleteEmployee,
      BeneficiaryController.getAllBeneficiaries, BeneficiaryController.getBeneficiaryById,
      BeneficiaryController.createBeneficiary, BeneficiaryController.updateBeneficiary,
      BeneficiaryController.deleteBeneficiary,
      UserController.getAllUsers, UserController.getUserById, UserController.createUser,
      UserController.updateUser, UserController.deleteUser,
      AdminController.createAdmin, AdminController.updateAdmin,
      AdminController.deleteAdmin,
      AuthController.ngoAdminRegister, AuthControllerAlt.volunteerRegister,
      unlessAdmin;
    repeat keeps_step.
Qed.
End FrameFacts.

Lemma operation_writes_one_table_witness :
  same_elsewhere (written (Protected.Users Protected.Delete)) Sample.db
    (set_rows User (delete 2 (rows User Sample.db)) Sample.db).
Proof.
  apply (operation_writes_one_table Sample.bcrypt_hashSync (fun _ _ => ([], 0))
           (fun _ _ => JNull) (Protected.Users Protected.Delete)
           (Sample.request None (Some Sample.admin_principal) {[ "id" := VNum 2 ]} ∅)
           Sample.db _ (Ok (Sent (sendEmpty 204)))).
  vm_compute; reflexivity.
Defined.

(** ** Projects: what is written *)



